(** * Rm-Copy-Trade-app: the copy engine of [backend/trade_copier.py]

    A shallow embedding of [TradeCopier] (sizing, filtering, direction
    mirroring, correlation of receiver trades through their comment tag, the
    copy loop and the orphan pass) and the properties of its specification,
    followed by the two drivers ([sync_all_accounts] and the provider loop
    of [monitor_trades] in [app.py]) and the value parsing of
    [Database.get_settings].

    Conventions of the model:
    - Python numbers (int and float settings, volumes, prices, balances) are
      exact rationals [Q]; [==] on [Q] is numeric equality.
    - Python strings are [string]; only the ASCII fragment of [str.strip],
      [int], [str.lower] and [str.isdigit] is modelled.
    - A Python dict whose iteration order matters is an association list in
      insertion order with unique keys.
    - Calls to the trading venue, the audit log and the event socket are
      recorded in a trace of [effect]s; what the venue answers is given by an
      oracle that may depend on everything that happened before. *)

From Stdlib Require Import ZArith QArith Bool List String Ascii Lia.
From Stdlib Require Import DecimalString DecimalPos DecimalZ.
Import ListNotations.

Local Open Scope string_scope.
Local Open Scope Z_scope.

(** ** Python string primitives *)

Module PyStr.

Definition len (s : string) : Z := Z.of_nat (String.length s).

Fixpoint startswith (sub s : string) : bool :=
  match sub, s with
  | EmptyString, _ => true
  | String a sub', String b s' => Ascii.eqb a b && startswith sub' s'
  | String _ _, EmptyString => false
  end.

Fixpoint drop (n : nat) (s : string) : string :=
  match n, s with
  | O, _ => s
  | S n', String _ s' => drop n' s'
  | S _, EmptyString => EmptyString
  end.

(** Lowest index [>= off] at which [sub] occurs, where [s] is the text
    from index [off] on; [-1] when there is none. *)
Fixpoint find_from (sub s : string) (off : Z) : Z :=
  if startswith sub s then off
  else match s with
       | EmptyString => -1
       | String _ s' => find_from sub s' (off + 1)
       end.

(** Slice indices: a negative index counts from the end, then both are
    clipped to [0 .. len]. *)
Definition norm_index (n i : Z) : Z :=
  if i <? 0 then Z.max 0 (i + n) else Z.min i n.

(** [s.find(sub, start)]: a negative [start] counts from the end; past
    the end nothing is found. *)
Definition find (sub s : string) (start : Z) : Z :=
  let i := if start <? 0 then Z.max 0 (start + len s) else start in
  if len s <? i then -1 else find_from sub (drop (Z.to_nat i) s) i.

(** [sub in s] *)
Definition contains (sub s : string) : bool :=
  negb (find sub s 0 =? -1).

(** [s[a:b]] *)
Definition slice (s : string) (a b : Z) : string :=
  let a' := norm_index (len s) a in
  let b' := norm_index (len s) b in
  String.substring (Z.to_nat a') (Z.to_nat (b' - a')) s.

(** ASCII white space as [str.strip] and [int] see it. *)
Definition is_space (c : ascii) : bool :=
  let n := nat_of_ascii c in
  ((9 <=? n) && (n <=? 13) || (28 <=? n) && (n <=? 32))%nat.

Fixpoint lstrip (s : string) : string :=
  match s with
  | String c s' => if is_space c then lstrip s' else s
  | EmptyString => EmptyString
  end.

Fixpoint rstrip (s : string) : string :=
  match s with
  | EmptyString => EmptyString
  | String c s' =>
      match rstrip s' with
      | EmptyString => if is_space c then EmptyString else String c EmptyString
      | r => String c r
      end
  end.

(** [s.strip()] *)
Definition strip (s : string) : string := rstrip (lstrip s).

(** [s.split(sep)] for a separator of one character. *)
Fixpoint split (sep : ascii) (s : string) : list string :=
  match s with
  | EmptyString => [EmptyString]
  | String c s' =>
      if Ascii.eqb c sep then EmptyString :: split sep s'
      else match split sep s' with
           | h :: t => String c h :: t
           | [] => [String c EmptyString]
           end
  end.

(** [x in l] for a list of strings. *)
Definition mem (x : string) (l : list string) : bool :=
  existsb (String.eqb x) l.

Definition digit_of (c : ascii) : option N :=
  let n := N_of_ascii c in
  if ((48 <=? n) && (n <=? 57))%N then Some (n - 48)%N else None.

(** The digits of an integer literal: decimal digits, with single
    underscores allowed between two digits. [seen] says that the previous
    character was a digit. *)
Fixpoint digits (s : string) (acc : N) (seen : bool) : option N :=
  match s with
  | EmptyString => if seen then Some acc else None
  | String c s' =>
      match digit_of c with
      | Some d => digits s' (acc * 10 + d)%N true
      | None =>
          if Ascii.eqb c "_" && seen then digits s' acc false else None
      end
  end.

(** White space as [int] skips it around a literal: tab, newline,
    vertical tab, form feed, carriage return and space. The separators 28
    to 31, which [str.strip] removes, are not among them. *)
Definition is_int_space (c : ascii) : bool :=
  let n := nat_of_ascii c in
  ((9 <=? n) && (n <=? 13) || (n =? 32))%nat.

Fixpoint int_lstrip (s : string) : string :=
  match s with
  | String c s' => if is_int_space c then int_lstrip s' else s
  | EmptyString => EmptyString
  end.

Fixpoint int_rstrip (s : string) : string :=
  match s with
  | EmptyString => EmptyString
  | String c s' =>
      match int_rstrip s' with
      | EmptyString => if is_int_space c then EmptyString else String c EmptyString
      | r => String c r
      end
  end.

(** [int(s)]: [None] stands for [ValueError]. *)
Definition int (s : string) : option Z :=
  match int_rstrip (int_lstrip s) with
  | String c r =>
      if Ascii.eqb c "-" then option_map (fun n => - Z.of_N n) (digits r 0%N false)
      else if Ascii.eqb c "+" then option_map Z.of_N (digits r 0%N false)
      else option_map Z.of_N (digits (String c r) 0%N false)
  | EmptyString => None
  end.

(** [str(n)] for an integer. *)
Definition str (n : Z) : string := NilZero.string_of_int (Z.to_int n).

End PyStr.


(** ** Python dicts in insertion order *)

Module PyDict.
Section Dict.
Context {V : Type}.

Definition dict := list (Z * V).

(** [d.get(k)] *)
Fixpoint get (d : dict) (k : Z) : option V :=
  match d with
  | [] => None
  | (k', v) :: d' => if k =? k' then Some v else get d' k
  end.

(** [d[k] = v]: an existing key keeps its place and takes the new value,
    a new key goes last. *)
Fixpoint set (d : dict) (k : Z) (v : V) : dict :=
  match d with
  | [] => [(k, v)]
  | (k', v') :: d' => if k =? k' then (k, v) :: d' else (k', v') :: set d' k v
  end.

Definition keys (d : dict) : list Z := map fst d.
Definition values (d : dict) : list V := map snd d.
End Dict.
Arguments dict : clear implicits.
End PyDict.

(** ** Data model *)

Local Open Scope Q_scope.

(** [a < b] and [a > b] on numbers. *)
Definition Qlt_bool (a b : Q) : bool := negb (Qle_bool b a).
Definition Qgt_bool (a b : Q) : bool := Qlt_bool b a.

(** Truth value of a number: anything but zero. *)
Definition truthy (x : Q) : bool := negb (Qeq_bool x 0).

(** A position or working order as the venue client returns it. The keys the
    code reads with [.get] or tests with [in] are optional. *)
Record Trade := {
  ticket : Z;
  type_ : string;
  symbol : string;
  volume : Q;
  sl : Q;
  tp : Q;
  price_open : option Q;
  price_current : option Q;
  comment : option string
}.

(** A row of the accounts table; [name] and [broker] may be NULL. *)
Record Account := {
  name : option string;
  broker : option string;
  balance : Q
}.

(** A row of the symbol_mappings table. *)
Record SymbolMapping := {
  provider_symbol : string;
  receiver_symbol : string;
  broker_name : option string
}.

(** The settings dict; a field is [None] when the key is absent, and then
    the default of the [.get] call that reads it applies. *)
Record Settings := {
  lot_mode : option string;
  fixed_lot : option Q;
  lot_multiplier : option Q;
  risk_percent : option Q;
  min_lot : option Q;
  max_lot : option Q;
  copy_buy : option bool;
  copy_sell : option bool;
  allowed_symbols : option string;
  blocked_symbols : option string;
  opposite_trades : option bool;
  close_on_provider_close : option bool;
  magic_number : option Z;
  symbol_suffix : option string;
  symbol_prefix : option string
}.

(** [d.get(key, default)] *)
Definition get {A : Type} (field : option A) (default : A) : A :=
  match field with
  | Some v => v
  | None => default
  end.

(** The settings table as [Database.init_database] fills it. *)
Definition default_settings : Settings := {|
  lot_mode := Some "multiplier"%string;
  fixed_lot := Some 0.01;
  lot_multiplier := Some 1.0;
  risk_percent := Some 1.0;
  min_lot := Some 0.01;
  max_lot := Some 100.0;
  copy_buy := Some true;
  copy_sell := Some true;
  allowed_symbols := Some ""%string;
  blocked_symbols := Some ""%string;
  opposite_trades := Some false;
  close_on_provider_close := Some true;
  magic_number := Some 123456%Z;
  symbol_suffix := Some ""%string;
  symbol_prefix := Some ""%string
|}.

(** ** Policy evaluator *)

Section Policy.
Variable settings : Settings.

(** [TradeCopier.map_symbol] over the rows of [get_symbol_mappings]. *)
Fixpoint map_symbol_in (mappings : list SymbolMapping)
    (symbol : string) (receiver_broker : option string) : option string :=
  match mappings with
  | [] => None
  | m :: rest =>
      if String.eqb (provider_symbol m) symbol
         && (match broker_name m, receiver_broker with
             | Some b, Some r => String.eqb b r
             | None, None => true
             | _, _ => false
             end
             || match broker_name m with
                | None => true
                | Some b => String.eqb b ""
                end)
      then Some (receiver_symbol m)
      else map_symbol_in rest symbol receiver_broker
  end.

Definition map_symbol (mappings : list SymbolMapping)
    (symbol : string) (provider_broker receiver_broker : option string) : string :=
  match map_symbol_in mappings symbol receiver_broker with
  | Some s => s
  | None =>
      let symbol_suffix := get (symbol_suffix settings) ""%string in
      let symbol_prefix := get (symbol_prefix settings) ""%string in
      (symbol_prefix ++ symbol ++ symbol_suffix)%string
  end.

(** The [if]/[elif] chain of [calculate_lot_size], before the limits. *)
Definition lot_size_by_mode (provider_volume provider_balance receiver_balance : Q) : Q :=
  let lot_mode := get (lot_mode settings) "multiplier"%string in
  if String.eqb lot_mode "same" then provider_volume
  else if String.eqb lot_mode "fixed" then get (fixed_lot settings) 0.01
  else if String.eqb lot_mode "multiplier" then
    let multiplier := get (lot_multiplier settings) 1.0 in
    provider_volume * multiplier
  else if String.eqb lot_mode "ratio" then
    if Qgt_bool provider_balance 0 then
      let ratio := receiver_balance / provider_balance in
      provider_volume * ratio
    else provider_volume
  else if String.eqb lot_mode "risk" then
    let risk_percent := get (risk_percent settings) 1.0 / 100 in
    (receiver_balance * risk_percent) / 1000
  else provider_volume.

(** The min/max limits of [calculate_lot_size]. *)
Definition apply_limits (volume : Q) : Q :=
  let min_lot := get (min_lot settings) 0.01 in
  let max_lot := get (max_lot settings) 100.0 in
  if Qlt_bool volume min_lot then min_lot
  else if Qgt_bool volume max_lot then max_lot
  else volume.

(** [TradeCopier.calculate_lot_size] *)
Definition calculate_lot_size (provider_volume provider_balance receiver_balance : Q) : Q :=
  apply_limits (lot_size_by_mode provider_volume provider_balance receiver_balance).

(** [[s.strip() for s in text.split(',')]] *)
Definition symbols_list (text : string) : list string :=
  map PyStr.strip (PyStr.split "," text).

Definition nonempty (s : string) : bool :=
  match s with
  | EmptyString => false
  | String _ _ => true
  end.

(** [TradeCopier.should_copy_trade] *)
Definition should_copy_trade (trade_type symbol : string) : bool :=
  if (if PyStr.mem trade_type ["BUY"; "BUY_LIMIT"; "BUY_STOP"]%string
      then negb (get (copy_buy settings) true)
      else if PyStr.mem trade_type ["SELL"; "SELL_LIMIT"; "SELL_STOP"]%string
      then negb (get (copy_sell settings) true)
      else false)
  then false
  else
    let allowed_symbols := get (allowed_symbols settings) ""%string in
    if nonempty allowed_symbols
       && negb (PyStr.mem symbol (symbols_list allowed_symbols))
    then false
    else
      let blocked_symbols := get (blocked_symbols settings) ""%string in
      if nonempty blocked_symbols
         && PyStr.mem symbol (symbols_list blocked_symbols)
      then false
      else true.

End Policy.

Definition opposite_map : list (string * string) :=
  [ ("BUY", "SELL"); ("SELL", "BUY");
    ("BUY_LIMIT", "SELL_LIMIT"); ("SELL_LIMIT", "BUY_LIMIT");
    ("BUY_STOP", "SELL_STOP"); ("SELL_STOP", "BUY_STOP") ]%string.

Fixpoint lookup (m : list (string * string)) (k : string) : option string :=
  match m with
  | [] => None
  | (k', v) :: m' => if String.eqb k k' then Some v else lookup m' k
  end.

(** [TradeCopier.get_opposite_trade_type] *)
Definition get_opposite_trade_type (trade_type : string) : string :=
  get (lookup opposite_map trade_type) trade_type.

(** ** Correlation resolver *)

(** What the resolver finds in a comment: no tag, the provider ticket, or a
    tag whose text [int] refuses. *)
Inductive tag :=
| Untagged
| Tagged (provider_ticket : Z)
| Invalid (literal : string).

(** The tag parser of [copy_trades] (the body of both resolver loops). *)
Definition parse_tag (comment : string) : tag :=
  if PyStr.contains "TKT=" comment then
    let start := (PyStr.find "TKT=" comment 0 + 4)%Z in
    let end_ := PyStr.find "]" comment start in
    if (end_ >? start)%Z then
      match PyStr.int (PyStr.slice comment start end_) with
      | Some provider_ticket => Tagged provider_ticket
      | None => Invalid (PyStr.slice comment start end_)
      end
    else Untagged
  else Untagged.

Inductive exn :=
| ValueError (literal : string).

Inductive result (A : Type) :=
| Ok (a : A)
| Raise (e : exn).
Arguments Ok {A} a.
Arguments Raise {A} e.

(** One resolver loop: [for pos in trades: ...] over the map built so far. *)
Fixpoint scan (trades : list Trade) (receiver_trades_map : PyDict.dict Trade)
    : result (PyDict.dict Trade) :=
  match trades with
  | [] => Ok receiver_trades_map
  | pos :: rest =>
      match parse_tag (get (comment pos) ""%string) with
      | Untagged => scan rest receiver_trades_map
      | Tagged provider_ticket =>
          scan rest (PyDict.set receiver_trades_map provider_ticket pos)
      | Invalid literal => Raise (ValueError literal)
      end
  end.

(** Positions first, then working orders. *)
Definition resolve (receiver_positions receiver_orders : list Trade)
    : result (PyDict.dict Trade) :=
  match scan receiver_positions [] with
  | Ok m => scan receiver_orders m
  | Raise e => Raise e
  end.

(** The comment written on a copy (lines 188-191 of [copy_trades]). *)
Definition build_tag (provider_ticket : Z) (opposite : bool) : string :=
  let comment := ("[TKT=" ++ PyStr.str provider_ticket ++ "]")%string in
  if opposite then (comment ++ "[OPPOSITE]")%string else comment.

(** ** Effects *)

Inductive effect :=
| place_trade (account_id : Z) (trade_type symbol : string)
    (volume sl tp : Q) (comment : string) (magic : Z)
| place_pending_order (account_id : Z) (order_type symbol : string)
    (volume price sl tp : Q) (comment : string) (magic : Z)
| modify_position (account_id ticket : Z) (sl tp : Q)
| close_position (account_id ticket : Z)
| delete_order (account_id ticket : Z)
| log_copied_trade (provider_id receiver_id provider_ticket receiver_ticket : Z)
    (symbol trade_type : string) (volume : Q)
| emit_trade_copied (provider receiver : option string)
    (symbol trade_type : string) (volume : Q) (ticket : Z)
| emit_trade_closed (receiver_ticket provider_ticket : Z)
| emit_order_deleted (receiver_ticket provider_ticket : Z)
| emit_error (e : exn) (provider receiver : Z).

(** The venue client: the snapshots it serves and what it answers to a call,
    given the effects that came before. *)
Record Venue := {
  get_positions : Z -> list Trade;
  get_orders : Z -> list Trade;
  answer_ticket : list effect -> effect -> option Z;
  answer_ok : list effect -> effect -> bool
}.

Record Database := {
  get_account : Z -> option Account;
  get_symbol_mappings : list SymbolMapping
}.

(** A computation reads the effects so far and returns a value with the
    effects it adds. *)
Definition M (A : Type) : Type := list effect -> A * list effect.

Definition ret {A : Type} (a : A) : M A := fun _ => (a, []).

Definition bind {A B : Type} (m : M A) (f : A -> M B) : M B :=
  fun h =>
    let (a, d1) := m h in
    let (b, d2) := f a (h ++ d1)%list in
    (b, (d1 ++ d2)%list).

Notation "x <- m ;; k" := (bind m (fun x => k))
  (at level 61, m at next level, right associativity).
Notation "m ;;; k" := (bind m (fun _ => k))
  (at level 61, right associativity).

Definition tell (e : effect) : M unit := fun _ => (tt, [e]).

Fixpoint for_each {A : Type} (l : list A) (body : A -> M unit) : M unit :=
  match l with
  | [] => ret tt
  | x :: rest => body x ;;; for_each rest body
  end.

(** The effects a computation adds after history [h]. *)
Definition run {A : Type} (m : M A) (h : list effect) : list effect := snd (m h).

(** ** Planner and executor *)

Section Engine.
Variable settings : Settings.
Variable db : Database.
Variable mt5 : Venue.

Definition call_ticket (e : effect) : M (option Z) :=
  fun h => (answer_ticket mt5 h e, [e]).

Definition call_ok (e : effect) : M bool :=
  fun h => (answer_ok mt5 h e, [e]).

(** [if result:] on a ticket or [None]. *)
Definition placed (result : option Z) : option Z :=
  match result with
  | Some t => if (t =? 0)%Z then None else Some t
  | None => None
  end.

Definition differs (a b : Q) : bool := negb (Qeq_bool a b).

(** The body of the [for trade in provider_trades] loop. *)
Definition copy_trade (provider_id receiver_id : Z)
    (provider_account receiver_account : Account)
    (receiver_trades_map : PyDict.dict Trade) (trade : Trade) : M unit :=
  let provider_ticket := ticket trade in
  match PyDict.get receiver_trades_map provider_ticket with
  | Some existing_trade =>
      if differs (sl existing_trade) (sl trade)
         || differs (tp existing_trade) (tp trade)
      then
        call_ok (modify_position receiver_id (ticket existing_trade)
                   (sl trade) (tp trade)) ;;;
        ret tt
      else ret tt
  | None =>
      if negb (should_copy_trade settings (type_ trade) (symbol trade))
      then ret tt
      else
        let mapped_symbol :=
          map_symbol settings (get_symbol_mappings db) (symbol trade)
            (broker provider_account) (broker receiver_account) in
        let volume :=
          calculate_lot_size settings (volume trade)
            (balance provider_account) (balance receiver_account) in
        let trade_type :=
          if get (opposite_trades settings) false
          then get_opposite_trade_type (type_ trade)
          else type_ trade in
        let comment :=
          build_tag provider_ticket (get (opposite_trades settings) false) in
        let magic := get (magic_number settings) provider_id in
        result <-
          (if PyStr.mem trade_type ["BUY"; "SELL"]%string
           then call_ticket (place_trade receiver_id trade_type mapped_symbol
                               volume (sl trade) (tp trade) comment magic)
           else call_ticket (place_pending_order receiver_id trade_type
                               mapped_symbol volume (get (price_open trade) 0)
                               (sl trade) (tp trade) comment magic)) ;;
        match placed result with
        | Some receiver_ticket =>
            tell (log_copied_trade provider_id receiver_id provider_ticket
                    receiver_ticket mapped_symbol trade_type volume) ;;;
            tell (emit_trade_copied (name provider_account)
                    (name receiver_account) mapped_symbol trade_type volume
                    receiver_ticket)
        | None => ret tt
        end
  end.

(** How [close_missing_trades] tells a position from a working order. *)
Definition is_position (receiver_trade : Trade) : bool :=
  match price_open receiver_trade, price_current receiver_trade with
  | Some _, Some p => truthy p
  | _, _ => false
  end.

Definition mem_ticket (k : Z) (tickets : list Z) : bool :=
  existsb (Z.eqb k) tickets.

(** The body of the loop of [close_missing_trades]. *)
Definition close_missing_trade (receiver_id : Z) (provider_tickets : list Z)
    (item : Z * Trade) : M unit :=
  let (provider_ticket, receiver_trade) := item in
  if negb (mem_ticket provider_ticket provider_tickets) then
    if is_position receiver_trade then
      ok <- call_ok (close_position receiver_id (ticket receiver_trade)) ;;
      if ok
      then tell (emit_trade_closed (ticket receiver_trade) provider_ticket)
      else ret tt
    else
      ok <- call_ok (delete_order receiver_id (ticket receiver_trade)) ;;
      if ok
      then tell (emit_order_deleted (ticket receiver_trade) provider_ticket)
      else ret tt
  else ret tt.

(** [TradeCopier.close_missing_trades] *)
Definition close_missing_trades (provider_trades : list Trade)
    (receiver_trades_map : PyDict.dict Trade) (receiver_id : Z) : M unit :=
  let provider_tickets := map ticket provider_trades in
  for_each receiver_trades_map (close_missing_trade receiver_id provider_tickets).

(** [TradeCopier.copy_trades] *)
Definition copy_trades (provider_id receiver_id : Z)
    (provider_trades : list Trade) : M unit :=
  match get_account db provider_id, get_account db receiver_id with
  | Some provider_account, Some receiver_account =>
      let receiver_positions := get_positions mt5 receiver_id in
      let receiver_orders := get_orders mt5 receiver_id in
      match resolve receiver_positions receiver_orders with
      | Ok receiver_trades_map =>
          for_each provider_trades
            (copy_trade provider_id receiver_id provider_account
               receiver_account receiver_trades_map) ;;;
          if get (close_on_provider_close settings) true
          then close_missing_trades provider_trades receiver_trades_map
                 receiver_id
          else ret tt
      | Raise e => tell (emit_error e provider_id receiver_id)
      end
  | _, _ => ret tt
  end.

End Engine.

(** ** Vocabulary of the specification *)

(** The six trade directions and the strings the venue uses for them. *)
Inductive direction := Buy | Sell | BuyLimit | SellLimit | BuyStop | SellStop.

Definition direction_name (d : direction) : string :=
  match d with
  | Buy => "BUY"
  | Sell => "SELL"
  | BuyLimit => "BUY_LIMIT"
  | SellLimit => "SELL_LIMIT"
  | BuyStop => "BUY_STOP"
  | SellStop => "SELL_STOP"
  end.

(** The mirror of a direction, as the specification lists it. *)
Definition mirror (d : direction) : direction :=
  match d with
  | Buy => Sell
  | Sell => Buy
  | BuyLimit => SellLimit
  | SellLimit => BuyLimit
  | BuyStop => SellStop
  | SellStop => BuyStop
  end.

Definition is_buy (d : direction) : Prop := d = Buy \/ d = BuyLimit \/ d = BuyStop.
Definition is_sell (d : direction) : Prop := d = Sell \/ d = SellLimit \/ d = SellStop.

(** The five sizing modes and their setting strings. *)
Inductive SizingMode := Same | Fixed | Multiplier | Ratio | Risk.

Definition mode_name (m : SizingMode) : string :=
  match m with
  | Same => "same"
  | Fixed => "fixed"
  | Multiplier => "multiplier"
  | Ratio => "ratio"
  | Risk => "risk"
  end.

(** [sizeVolume] before clamping, after the words of the specification. *)
Definition sizeVolume (policy : Settings) (mode : SizingMode)
    (providerVolume providerBalance receiverBalance : Q) : Q :=
  match mode with
  | Same => providerVolume
  | Fixed => get (fixed_lot policy) 0.01
  | Multiplier => providerVolume * get (lot_multiplier policy) 1.0
  | Ratio =>
      if Qlt_le_dec 0 providerBalance
      then providerVolume * (receiverBalance / providerBalance)
      else providerVolume
  | Risk => (receiverBalance * get (risk_percent policy) 1.0 / 100) / 1000
  end.

(** The allow-list and the block-list of a policy; an empty setting is no
    list. *)
Definition allow_list_configured (policy : Settings) : Prop :=
  get (allowed_symbols policy) ""%string <> ""%string.

Definition allow_list (policy : Settings) : list string :=
  symbols_list (get (allowed_symbols policy) ""%string).

Definition block_list (policy : Settings) : list string :=
  let text := get (blocked_symbols policy) ""%string in
  if nonempty text then symbols_list text else [].

(** When [shouldCopy] rejects, after the words of the specification: pending
    buys are not named there. *)
Definition shouldCopy_rejects (policy : Settings) (d : direction) (symbol : string) : Prop :=
  (d = Buy /\ get (copy_buy policy) true = false) \/
  (is_sell d /\ get (copy_sell policy) true = false) \/
  (allow_list_configured policy /\ ~ In symbol (allow_list policy)) \/
  In symbol (block_list policy).

(** When [should_copy_trade] rejects: every buy direction is under
    [copy_buy]. *)
Definition rejects (policy : Settings) (d : direction) (symbol : string) : Prop :=
  (is_buy d /\ get (copy_buy policy) true = false) \/
  (is_sell d /\ get (copy_sell policy) true = false) \/
  (allow_list_configured policy /\ ~ In symbol (allow_list policy)) \/
  In symbol (block_list policy).

(** The policy of the sizing scenario. *)
Definition scenario_policy : Settings := {|
  lot_mode := Some "multiplier"%string;
  fixed_lot := Some 0.01;
  lot_multiplier := Some 2.0;
  risk_percent := Some 1.0;
  min_lot := Some 0.01;
  max_lot := Some 5.0;
  copy_buy := Some true;
  copy_sell := Some true;
  allowed_symbols := Some ""%string;
  blocked_symbols := Some ""%string;
  opposite_trades := Some false;
  close_on_provider_close := Some true;
  magic_number := Some 123456%Z;
  symbol_suffix := Some ""%string;
  symbol_prefix := Some ""%string
|}.

(** A policy that copies no buys and has no symbol lists. *)
Definition sell_only_policy : Settings := {|
  lot_mode := Some "multiplier"%string;
  fixed_lot := Some 0.01;
  lot_multiplier := Some 1.0;
  risk_percent := Some 1.0;
  min_lot := Some 0.01;
  max_lot := Some 100.0;
  copy_buy := Some false;
  copy_sell := Some true;
  allowed_symbols := Some ""%string;
  blocked_symbols := Some ""%string;
  opposite_trades := Some false;
  close_on_provider_close := Some true;
  magic_number := Some 123456%Z;
  symbol_suffix := Some ""%string;
  symbol_prefix := Some ""%string
|}.

(** A policy whose sizing mode is none of the five. *)
Definition percent_policy : Settings := {|
  lot_mode := Some "percent"%string;
  fixed_lot := Some 0.01;
  lot_multiplier := Some 3.0;
  risk_percent := Some 1.0;
  min_lot := Some 0.01;
  max_lot := Some 2.0;
  copy_buy := Some true;
  copy_sell := Some true;
  allowed_symbols := Some ""%string;
  blocked_symbols := Some ""%string;
  opposite_trades := Some false;
  close_on_provider_close := Some true;
  magic_number := None;
  symbol_suffix := None;
  symbol_prefix := None
|}.

(** A policy with one symbol on both lists. *)
Definition both_lists_policy : Settings := {|
  lot_mode := Some "same"%string;
  fixed_lot := None;
  lot_multiplier := None;
  risk_percent := None;
  min_lot := None;
  max_lot := None;
  copy_buy := Some true;
  copy_sell := Some true;
  allowed_symbols := Some "EURUSD, XAUUSD"%string;
  blocked_symbols := Some "XAUUSD"%string;
  opposite_trades := None;
  close_on_provider_close := None;
  magic_number := None;
  symbol_suffix := None;
  symbol_prefix := None
|}.

(** Character classes of the decimal text of a ticket. *)

Fixpoint all_chars (p : ascii -> bool) (s : string) : bool :=
  match s with
  | EmptyString => true
  | String c s' => p c && all_chars p s'
  end.

Definition is_digit (c : ascii) : bool :=
  match PyStr.digit_of c with
  | Some _ => true
  | None => false
  end.

Definition ticket_char (c : ascii) : bool := is_digit c || Ascii.eqb c "-".

(** The venue calls that act on an existing receiver trade, and the ticket
    they act on. *)
Definition target (e : effect) : option Z :=
  match e with
  | modify_position _ t _ _ => Some t
  | close_position _ t => Some t
  | delete_order _ t => Some t
  | _ => None
  end.

(** The calls of the orphan pass. *)
Definition orphan_call (e : effect) : bool :=
  match e with
  | close_position _ _ | delete_order _ _ => true
  | _ => false
  end.

(** The calls that open a copy. *)
Definition open_call (e : effect) : bool :=
  match e with
  | place_trade _ _ _ _ _ _ _ _ | place_pending_order _ _ _ _ _ _ _ _ _ => true
  | _ => false
  end.

(** What the orphan pass does with the receiver trade [r]. *)
Definition orphan_action (receiver_id : Z) (r : Trade) : effect :=
  if is_position r
  then close_position receiver_id (ticket r)
  else delete_order receiver_id (ticket r).

(** ** Sample data *)

Definition account_of (n : string) (b : Q) : Account :=
  {| name := Some n; broker := None; balance := b |}.

(** Provider account 1 and receiver account 2, no symbol mappings. *)
Definition sample_db : Database := {|
  get_account := fun id =>
    if (id =? 1)%Z then Some (account_of "provider" 10000)
    else if (id =? 2)%Z then Some (account_of "receiver" 10000)
    else None;
  get_symbol_mappings := []
|}.

(** A venue that serves the given receiver snapshot and accepts every call,
    numbering new tickets from 100000. *)
Definition sample_venue (positions orders : list Trade) : Venue := {|
  get_positions := fun _ => positions;
  get_orders := fun _ => orders;
  answer_ticket := fun h _ => Some (100000 + Z.of_nat (List.length h))%Z;
  answer_ok := fun _ _ => true
|}.

Definition position (t : Z) (ty sym : string) (v s p : Q) (c : string) : Trade :=
  {| ticket := t; type_ := ty; symbol := sym; volume := v; sl := s; tp := p;
     price_open := Some 1.1; price_current := Some 1.2; comment := Some c |}.

Definition pending (t : Z) (ty sym : string) (v s p : Q) (c : string) : Trade :=
  {| ticket := t; type_ := ty; symbol := sym; volume := v; sl := s; tp := p;
     price_open := Some 1.1; price_current := None; comment := Some c |}.

Definition provider_buy : Trade := position 555 "BUY" "EURUSD" 1.0 1.05 1.25 "".
Definition provider_buy_moved : Trade := position 555 "BUY" "EURUSD" 1.0 1.07 1.25 "".
Definition receiver_copy : Trade := position 9001 "BUY" "EURUSD" 1.0 1.05 1.25 "[TKT=555]".
Definition receiver_order : Trade := pending 9002 "SELL_LIMIT" "XAUUSD" 0.5 0 0 "[TKT=556]".
Definition receiver_manual : Trade := position 9003 "SELL" "GBPUSD" 0.3 0 0 "my own trade".
Definition receiver_garbled : Trade := position 9004 "BUY" "EURUSD" 1.0 0 0 "[TKT=abc]".

(** The correlation map of a cycle, when the cycle gets as far as having
    one: both accounts are found and no tag makes the resolver raise. *)
Definition cycle_map (db : Database) (mt5 : Venue) (provider_id receiver_id : Z)
    : option (PyDict.dict Trade) :=
  match get_account db provider_id, get_account db receiver_id with
  | Some _, Some _ =>
      match resolve (get_positions mt5 receiver_id) (get_orders mt5 receiver_id) with
      | Ok m => Some m
      | Raise _ => None
      end
  | _, _ => None
  end.

(** An effect that is neither a call of the orphan pass nor a call on an
    existing receiver trade. *)
Definition passive (e : effect) : Prop :=
  orphan_call e = false /\ target e = None.

(** A call of the copy loop: not one of the orphan pass, and if it acts on a
    receiver trade, that trade is held in the map [m]. *)
Definition loop_effect (m : PyDict.dict Trade) (e : effect) : Prop :=
  orphan_call e = false /\
  forall t, target e = Some t ->
    exists k r, PyDict.get m k = Some r /\ ticket r = t.

(** ** Drivers *)

(** A row of the accounts table as the drivers read it. *)
Record AccountRow := {
  id_ : Z;
  enabled : bool
}.

Section Drivers.
Variable settings : Settings.
(** The [copy_pending] key of the settings dict. *)
Variable copy_pending : option bool.
Variable db : Database.
Variable mt5 : Venue.

(** The loop [for receiver in receivers] of both drivers. *)
Definition copy_to_receivers (receivers : list AccountRow) (provider_id : Z)
    (provider_trades : list Trade) : M unit :=
  for_each receivers
    (fun receiver =>
       if enabled receiver
       then copy_trades settings db mt5 provider_id (id_ receiver) provider_trades
       else ret tt).

(** The body of the provider loop of [sync_all_accounts]. *)
Definition sync_provider (receivers : list AccountRow) (provider : AccountRow) : M unit :=
  if negb (enabled provider) then ret tt
  else
    let provider_trades := get_positions mt5 (id_ provider) in
    let provider_orders := get_orders mt5 (id_ provider) in
    let provider_trades :=
      if get copy_pending true
      then (provider_trades ++ provider_orders)%list
      else provider_trades in
    copy_to_receivers receivers (id_ provider) provider_trades.

(** [TradeCopier.sync_all_accounts], over the rows that
    [get_provider_accounts] and [get_receiver_accounts] return. *)
Definition sync_all_accounts (providers receivers : list AccountRow) : M bool :=
  for_each providers (sync_provider receivers) ;;; ret true.

(** The body of the provider loop of [monitor_trades] in [app.py]. *)
Definition monitor_provider (receivers : list AccountRow) (provider : AccountRow) : M unit :=
  let provider_trades := get_positions mt5 (id_ provider) in
  match provider_trades with
  | [] => ret tt
  | _ :: _ => copy_to_receivers receivers (id_ provider) provider_trades
  end.

(** One pass of the provider loop of [monitor_trades]. *)
Definition monitor_providers (providers receivers : list AccountRow) : M unit :=
  for_each providers (monitor_provider receivers).

End Drivers.

(** ** What an open call carries *)

Definition open_comment (e : effect) : option string :=
  match e with
  | place_trade _ _ _ _ _ _ c _ => Some c
  | place_pending_order _ _ _ _ _ _ _ c _ => Some c
  | _ => None
  end.

Definition open_volume (e : effect) : option Q :=
  match e with
  | place_trade _ _ _ v _ _ _ _ => Some v
  | place_pending_order _ _ _ v _ _ _ _ _ => Some v
  | _ => None
  end.

Definition open_type (e : effect) : option string :=
  match e with
  | place_trade _ t _ _ _ _ _ _ => Some t
  | place_pending_order _ t _ _ _ _ _ _ _ => Some t
  | _ => None
  end.

Definition open_symbol (e : effect) : option string :=
  match e with
  | place_trade _ _ s _ _ _ _ _ => Some s
  | place_pending_order _ _ s _ _ _ _ _ _ => Some s
  | _ => None
  end.

Definition open_stops (e : effect) : option (Q * Q) :=
  match e with
  | place_trade _ _ _ _ s t _ _ => Some (s, t)
  | place_pending_order _ _ _ _ _ s t _ _ => Some (s, t)
  | _ => None
  end.

Definition is_modify (e : effect) : bool :=
  match e with
  | modify_position _ _ _ _ => true
  | _ => false
  end.

(** The six type names the venue uses. *)
Definition known_types : list string :=
  ["BUY"; "SELL"; "BUY_LIMIT"; "SELL_LIMIT"; "BUY_STOP"; "SELL_STOP"]%string.

(** The row of the mapping table that [map_symbol] stops at. *)
Definition mapping_matches (m : SymbolMapping) (symbol : string)
    (receiver_broker : option string) : Prop :=
  provider_symbol m = symbol /\
  (broker_name m = receiver_broker \/ broker_name m = None \/
   broker_name m = Some ""%string).

(** ** The settings table *)

Module SettingsTable.

(** A value of the settings dict after [get_settings] has read it. *)
Inductive setting :=
| SBool (b : bool)
| SInt (n : Z)
| SFloat (x : Q)
| SStr (s : string).

Definition lower_char (c : ascii) : ascii :=
  let n := nat_of_ascii c in
  if ((65 <=? n) && (n <=? 90))%nat then ascii_of_nat (n + 32) else c.

(** [s.lower()] on ASCII text. *)
Fixpoint lower (s : string) : string :=
  match s with
  | EmptyString => EmptyString
  | String c s' => String (lower_char c) (lower s')
  end.

(** [s.replace(c, '')] *)
Fixpoint remove_char (c : ascii) (s : string) : string :=
  match s with
  | EmptyString => EmptyString
  | String a s' => if Ascii.eqb a c then remove_char c s' else String a (remove_char c s')
  end.

(** [s.isdigit()] on ASCII text. *)
Definition isdigit (s : string) : bool :=
  nonempty s && all_chars is_digit s.

(** [c in s] for one character. *)
Fixpoint has_char (c : ascii) (s : string) : bool :=
  match s with
  | EmptyString => false
  | String a s' => Ascii.eqb a c || has_char c s'
  end.

(** The text before the first dot, and the text after it when there is
    one. *)
Fixpoint split_dot (s : string) : string * option string :=
  match s with
  | EmptyString => (EmptyString, None)
  | String c s' =>
      if Ascii.eqb c "." then (EmptyString, Some s')
      else let (a, b) := split_dot s' in (String c a, b)
  end.

(** The number a run of decimal digits writes; [None] on any other
    character. *)
Fixpoint plain_digits (s : string) (acc : N) : option N :=
  match s with
  | EmptyString => Some acc
  | String c s' =>
      match PyStr.digit_of c with
      | Some d => plain_digits s' (acc * 10 + d)%N
      | None => None
      end
  end.

(** [float(value)] for a value that passed the numeric test of
    [get_settings], that is, made of digits, dots and minus signs only: an
    optional leading minus, digits, at most one dot, at least one digit.
    [None] stands for [ValueError]. *)
Definition float_plain (value : string) : option Q :=
  let (negative, body) :=
    match value with
    | String c r => if Ascii.eqb c "-" then (true, r) else (false, value)
    | EmptyString => (false, value)
    end in
  let (int_part, after_dot) := split_dot body in
  let frac_part := get after_dot ""%string in
  if nonempty int_part || nonempty frac_part then
    match plain_digits int_part 0%N, plain_digits frac_part 0%N with
    | Some i, Some f =>
        let scale := Z.to_pos (10 ^ Z.of_nat (String.length frac_part)) in
        let scaled := (Z.of_N i * Z.pos scale + Z.of_N f)%Z in
        Some (Qmake (if negative then (- scaled)%Z else scaled) scale)
    | _, _ => None
    end
  else None.

(** The parsing of one value in the loop of [Database.get_settings]. *)
Definition parse_value (value : string) : result setting :=
  if PyStr.mem (lower value) ["true"; "false"]%string
  then Ok (SBool (String.eqb (lower value) "true"))
  else if isdigit (remove_char "-" (remove_char "." value)) then
    if has_char "." value then
      match float_plain value with
      | Some x => Ok (SFloat x)
      | None => Raise (ValueError value)
      end
    else
      match PyStr.int value with
      | Some n => Ok (SInt n)
      | None => Raise (ValueError value)
      end
  else Ok (SStr value).

(** [settings[key] = v] *)
Fixpoint assign (d : list (string * setting)) (key : string) (v : setting)
    : list (string * setting) :=
  match d with
  | [] => [(key, v)]
  | (k', v') :: d' =>
      if String.eqb key k' then (key, v) :: d' else (k', v') :: assign d' key v
  end.

(** The loop of [Database.get_settings] over the rows of the table. *)
Fixpoint read_rows (rows : list (string * string)) (settings : list (string * setting))
    : result (list (string * setting)) :=
  match rows with
  | [] => Ok settings
  | (key, value) :: rest =>
      match parse_value value with
      | Ok v => read_rows rest (assign settings key v)
      | Raise e => Raise e
      end
  end.

(** [Database.get_settings] *)
Definition get_settings (rows : list (string * string)) : result (list (string * setting)) :=
  read_rows rows [].

(** [str(value)] of a bool, as [update_settings] writes it. *)
Definition str_bool (b : bool) : string := if b then "True" else "False".

End SettingsTable.

(** ** More sample data *)

Definition sample_mappings : list SymbolMapping :=
  [ {| provider_symbol := "XAUUSD"; receiver_symbol := "GOLD.x"; broker_name := Some "OtherBroker" |};
    {| provider_symbol := "XAUUSD"; receiver_symbol := "GOLD"; broker_name := None |};
    {| provider_symbol := "XAUUSD"; receiver_symbol := "XAU"; broker_name := Some "" |} ]%string.

(** A policy whose limits are the wrong way round. *)
Definition crossed_limits_policy : Settings := {|
  lot_mode := Some "same"%string;
  fixed_lot := None;
  lot_multiplier := None;
  risk_percent := None;
  min_lot := Some 2.0;
  max_lot := Some 1.0;
  copy_buy := None;
  copy_sell := None;
  allowed_symbols := None;
  blocked_symbols := None;
  opposite_trades := None;
  close_on_provider_close := None;
  magic_number := None;
  symbol_suffix := None;
  symbol_prefix := None
|}.

(** A policy in ratio mode. *)
Definition ratio_policy : Settings := {|
  lot_mode := Some "ratio"%string;
  fixed_lot := None;
  lot_multiplier := None;
  risk_percent := None;
  min_lot := None;
  max_lot := None;
  copy_buy := Some false;
  copy_sell := Some false;
  allowed_symbols := None;
  blocked_symbols := Some "USDJPY, XAUUSD ,BTCUSD"%string;
  opposite_trades := Some true;
  close_on_provider_close := None;
  magic_number := None;
  symbol_suffix := None;
  symbol_prefix := None
|}.

(** The settings dict with no key at all. *)
Definition empty_settings : Settings := {|
  lot_mode := None;
  fixed_lot := None;
  lot_multiplier := None;
  risk_percent := None;
  min_lot := None;
  max_lot := None;
  copy_buy := None;
  copy_sell := None;
  allowed_symbols := None;
  blocked_symbols := None;
  opposite_trades := None;
  close_on_provider_close := None;
  magic_number := None;
  symbol_suffix := None;
  symbol_prefix := None
|}.

(** Characters of a symbol in a list setting: no comma, no white space. *)
Definition symbol_char (c : ascii) : bool :=
  negb (PyStr.is_space c) && negb (Ascii.eqb c ",").

(** White space other than a comma: what may surround an entry. *)
Definition padding_char (c : ascii) : bool := PyStr.is_space c.

Definition receiver_order_same_tag : Trade :=
  pending 9005 "BUY_LIMIT" "EURUSD" 1.0 0 0 "[TKT=555]".

(** What the copy loop is bound to when it opens a copy of [trade]. *)
Definition opens_copy_of (settings : Settings) (db : Database)
    (provider_account receiver_account : Account)
    (m : PyDict.dict Trade) (trade : Trade) (e : effect) : Prop :=
  PyDict.get m (ticket trade) = None /\
  should_copy_trade settings (type_ trade) (symbol trade) = true /\
  open_comment e
    = Some (build_tag (ticket trade) (get (opposite_trades settings) false)) /\
  open_volume e
    = Some (calculate_lot_size settings (volume trade)
              (balance provider_account) (balance receiver_account)) /\
  open_stops e = Some (sl trade, tp trade) /\
  open_type e
    = Some (if get (opposite_trades settings) false
            then get_opposite_trade_type (type_ trade)
            else type_ trade) /\
  open_symbol e
    = Some (map_symbol settings (get_symbol_mappings db) (symbol trade)
              (broker provider_account) (broker receiver_account)).

(** Characters of a value that passes the numeric test of [get_settings]. *)
Definition numeric_char (c : ascii) : bool :=
  is_digit c || Ascii.eqb c "-" || Ascii.eqb c ".".

Definition provider_new : Trade := position 777 "SELL" "GBPUSD" 0.4 1.31 1.21 "".

Definition sample_open : effect :=
  place_trade 2 "BUY" "EURUSD" (1.0 * 1.0) 1.05 1.25 "[TKT=555]" 123456.

Definition sample_rows : list AccountRow :=
  [ {| id_ := 1; enabled := true |} ].

Definition sample_receivers : list AccountRow :=
  [ {| id_ := 3; enabled := false |}; {| id_ := 2; enabled := true |} ].

Definition provider_order : Trade := pending 556 "SELL_LIMIT" "XAUUSD" 0.5 0 0 "".

Definition sample_open_new : effect :=
  place_trade 2 "SELL" "GBPUSD" (0.4 * 1.0) 1.31 1.21 "[TKT=777]" 123456.

(** A venue on which account 1 is the provider of the samples and every
    other account holds the receiver's copies. *)
Definition split_venue : Venue := {|
  get_positions := fun id => if (id =? 1)%Z then [provider_buy_moved] else [receiver_copy];
  get_orders := fun id => if (id =? 1)%Z then [provider_order] else [receiver_order];
  answer_ticket := fun h _ => Some (100000 + Z.of_nat (List.length h))%Z;
  answer_ok := fun _ _ => true
|}.

(** A market order call, as opposed to a pending order call. *)
Definition market_call (e : effect) : bool :=
  match e with
  | place_trade _ _ _ _ _ _ _ _ => true
  | _ => false
  end.

(** The trigger price of a pending order call. *)
Definition pending_price (e : effect) : option Q :=
  match e with
  | place_pending_order _ _ _ _ p _ _ _ _ => Some p
  | _ => None
  end.

(** * Properties *)

(** ** The string primitives on examples *)

Example find_tag : PyStr.find "TKT=" "xx[TKT=12]" 0 = 3%Z.
Proof. reflexivity. Qed.

Example find_absent : PyStr.find "TKT=" "manual order" 0 = (-1)%Z.
Proof. reflexivity. Qed.

Example find_bracket : PyStr.find "]" "a]b]" 2 = 3%Z.
Proof. reflexivity. Qed.

Example slice_mid : PyStr.slice "[TKT=12][OPPOSITE]" 5 7 = "12"%string.
Proof. reflexivity. Qed.

Example split_strip :
  symbols_list "EURUSD, XAUUSD ," = ["EURUSD"; "XAUUSD"; ""]%string.
Proof. reflexivity. Qed.

Example int_ok :
  PyStr.int " -1_000 " = Some (-1000)%Z /\ PyStr.int "+007" = Some 7%Z.
Proof. split; reflexivity. Qed.

Example int_bad :
  PyStr.int "12a" = None /\ PyStr.int "" = None /\
  PyStr.int "1__0" = None /\ PyStr.int "- 5" = None.
Proof. repeat split; reflexivity. Qed.

Example int_separator :
  PyStr.int (String (ascii_of_nat 28) "5") = None /\
  PyStr.strip (String (ascii_of_nat 28) "5") = "5"%string /\
  PyStr.int (String (ascii_of_nat 9) "5") = Some 5%Z.
Proof. repeat split; reflexivity. Qed.

Example str_neg :
  PyStr.str (-705) = "-705"%string /\ PyStr.str 0 = "0"%string.
Proof. split; reflexivity. Qed.

Example parse_tag_examples :
  parse_tag "[TKT=555]" = Tagged 555 /\
  parse_tag "[TKT=42][OPPOSITE]" = Tagged 42 /\
  parse_tag "manual" = Untagged /\
  parse_tag "[TKT=77" = Untagged /\
  parse_tag "[TKT=]" = Untagged /\
  parse_tag "[TKT=abc]" = Invalid "abc".
Proof. repeat split; reflexivity. Qed.

(** ** Policy evaluator *)

Lemma Qlt_bool_iff (a b : Q) : Qlt_bool a b = true <-> a < b.
Proof.
  unfold Qlt_bool. rewrite negb_true_iff.
  split; intro H.
  - apply Qnot_le_lt. intro L. apply Qle_bool_iff in L. congruence.
  - destruct (Qle_bool b a) eqn:E; [|reflexivity].
    apply Qle_bool_iff in E. exfalso. exact (Qlt_not_le _ _ H E).
Qed.

Lemma Qlt_bool_false (a b : Q) : Qlt_bool a b = false <-> b <= a.
Proof.
  unfold Qlt_bool. rewrite negb_false_iff. apply Qle_bool_iff.
Qed.

Lemma apply_limits_cases (s : Settings) (v : Q) :
  (v < get (min_lot s) 0.01 /\ apply_limits s v = get (min_lot s) 0.01) \/
  (get (min_lot s) 0.01 <= v /\ get (max_lot s) 100.0 < v /\
   apply_limits s v = get (max_lot s) 100.0) \/
  (get (min_lot s) 0.01 <= v <= get (max_lot s) 100.0 /\ apply_limits s v = v).
Proof.
  unfold apply_limits, Qgt_bool.
  destruct (Qlt_bool v (get (min_lot s) 0.01)) eqn:Hmin.
  - left. apply Qlt_bool_iff in Hmin. auto.
  - apply Qlt_bool_false in Hmin.
    destruct (Qlt_bool (get (max_lot s) 100.0) v) eqn:Hmax.
    + right; left. apply Qlt_bool_iff in Hmax. auto.
    + right; right. apply Qlt_bool_false in Hmax. auto.
Qed.

(** C1. Whatever the sizing mode, the provider volume and the balances, when
    the policy has [min_lot <= max_lot] the volume [calculate_lot_size]
    returns lies in [[min_lot, max_lot]], bounds included. *)
Theorem calculate_lot_size_within_limits
    (s : Settings) (provider_volume provider_balance receiver_balance : Q) :
  get (min_lot s) 0.01 <= get (max_lot s) 100.0 ->
  get (min_lot s) 0.01
    <= calculate_lot_size s provider_volume provider_balance receiver_balance
    <= get (max_lot s) 100.0.
Proof.
  intros Hle. unfold calculate_lot_size.
  destruct (apply_limits_cases s
              (lot_size_by_mode s provider_volume provider_balance receiver_balance))
    as [[_ ->] | [[_ [_ ->]] | [[Hlo Hhi] ->]]].
  - split; [apply Qle_refl | exact Hle].
  - split; [exact Hle | apply Qle_refl].
  - split; assumption.
Qed.

Lemma calculate_lot_size_within_limits_witness :
  0.01 <= calculate_lot_size scenario_policy 3.0 10000 10000 <= 5.0.
Proof.
  apply (calculate_lot_size_within_limits scenario_policy 3.0 10000 10000).
  vm_compute. discriminate.
Defined.

(** C9. On each of the six directions the opposite mapping gives the mirror
    direction, and applied twice it gives the direction back. *)
Theorem get_opposite_trade_type_involution (d : direction) :
  get_opposite_trade_type (get_opposite_trade_type (direction_name d))
    = direction_name d /\
  get_opposite_trade_type (direction_name d) = direction_name (mirror d).
Proof.
  destruct d; split; reflexivity.
Qed.

(** C10. A mode string outside the five known ones makes
    [calculate_lot_size] fall back to the provider volume and clamp it: the
    result is [min_lot] for a provider volume below [min_lot], [max_lot]
    for one not below [min_lot] and above [max_lot], and the provider
    volume itself for one between the two; so the function has a value for
    every mode string, and with [min_lot <= max_lot] that value lies in
    [[min_lot, max_lot]]. *)
Theorem calculate_lot_size_unknown_mode
    (s : Settings) (mode : string)
    (provider_volume provider_balance receiver_balance : Q) :
  lot_mode s = Some mode ->
  ~ In mode ["same"; "fixed"; "multiplier"; "ratio"; "risk"]%string ->
  let lo := get (min_lot s) 0.01 in
  let hi := get (max_lot s) 100.0 in
  let volume :=
    calculate_lot_size s provider_volume provider_balance receiver_balance in
  lot_size_by_mode s provider_volume provider_balance receiver_balance
    = provider_volume /\
  (provider_volume < lo -> volume = lo) /\
  (lo <= provider_volume -> hi < provider_volume -> volume = hi) /\
  (lo <= provider_volume <= hi -> volume = provider_volume) /\
  (volume = lo \/ volume = hi \/ volume = provider_volume) /\
  (lo <= hi -> lo <= volume <= hi).
Proof.
  intros Hmode Hnot. cbv zeta.
  assert (H : lot_size_by_mode s provider_volume provider_balance receiver_balance
              = provider_volume).
  { unfold lot_size_by_mode. rewrite Hmode. simpl get.
    repeat match goal with
           | |- context [String.eqb mode ?k] =>
               destruct (String.eqb_spec mode k) as [-> | _];
               [exfalso; apply Hnot; simpl; tauto |]
           end.
    reflexivity. }
  split; [exact H |].
  unfold calculate_lot_size. rewrite H.
  destruct (apply_limits_cases s provider_volume)
    as [[Hlt ->] | [[Hge [Hgt ->]] | [[Hlo Hhi] ->]]].
  - split; [| split; [| split; [| split]]].
    + intros _. reflexivity.
    + intros Hge _. exfalso. exact (Qlt_not_le _ _ Hlt Hge).
    + intros [Hge _]. exfalso. exact (Qlt_not_le _ _ Hlt Hge).
    + left. reflexivity.
    + intros Hle. split; [apply Qle_refl | exact Hle].
  - split; [| split; [| split; [| split]]].
    + intros Hlt. exfalso. exact (Qlt_not_le _ _ Hlt Hge).
    + intros _ _. reflexivity.
    + intros [_ Hle]. exfalso. exact (Qlt_not_le _ _ Hgt Hle).
    + right. left. reflexivity.
    + intros Hle. split; [exact Hle | apply Qle_refl].
  - split; [| split; [| split; [| split]]].
    + intros Hlt. exfalso. exact (Qlt_not_le _ _ Hlt Hlo).
    + intros _ Hgt. exfalso. exact (Qlt_not_le _ _ Hgt Hhi).
    + intros _. reflexivity.
    + right. right. reflexivity.
    + intros _. split; assumption.
Qed.

Lemma calculate_lot_size_unknown_mode_witness :
  calculate_lot_size percent_policy 3.0 10000 20000 = 2.0 /\
  calculate_lot_size percent_policy 0.001 10000 20000 = 0.01 /\
  calculate_lot_size percent_policy 1.5 10000 20000 = 1.5.
Proof.
  assert (Hnot : ~ In "percent"%string
                     ["same"; "fixed"; "multiplier"; "ratio"; "risk"]%string)
    by (simpl; intros [H | [H | [H | [H | [H | []]]]]]; discriminate H).
  split; [| split].
  - apply (calculate_lot_size_unknown_mode percent_policy "percent" 3.0 10000 20000
             eq_refl Hnot); vm_compute; first [reflexivity | discriminate].
  - apply (calculate_lot_size_unknown_mode percent_policy "percent" 0.001 10000 20000
             eq_refl Hnot); vm_compute; reflexivity.
  - apply (calculate_lot_size_unknown_mode percent_policy "percent" 1.5 10000 20000
             eq_refl Hnot); vm_compute; split; discriminate.
Defined.

Lemma apply_limits_proper (s : Settings) (u v : Q) :
  u == v -> apply_limits s u == apply_limits s v.
Proof.
  intros E. unfold apply_limits, Qgt_bool, Qlt_bool.
  assert (Hmin : Qle_bool (get (min_lot s) 0.01) u = Qle_bool (get (min_lot s) 0.01) v)
    by (now rewrite E).
  assert (Hmax : Qle_bool u (get (max_lot s) 100.0) = Qle_bool v (get (max_lot s) 100.0))
    by (now rewrite E).
  rewrite Hmin, Hmax.
  destruct (Qle_bool (get (min_lot s) 0.01) v); simpl; [|reflexivity].
  destruct (Qle_bool v (get (max_lot s) 100.0)); simpl; [exact E | reflexivity].
Qed.

Lemma lot_size_by_mode_spec (s : Settings) (m : SizingMode) (pv pb rb : Q) :
  get (lot_mode s) "multiplier"%string = mode_name m ->
  lot_size_by_mode s pv pb rb == sizeVolume s m pv pb rb.
Proof.
  intros Hm. unfold lot_size_by_mode. rewrite Hm.
  destruct m; simpl; try reflexivity.
  - unfold Qgt_bool. destruct (Qlt_le_dec 0 pb) as [Hpos | Hle].
    + apply Qlt_bool_iff in Hpos. rewrite Hpos. reflexivity.
    + apply Qlt_bool_false in Hle. rewrite Hle. reflexivity.
  - unfold Qdiv. ring.
Qed.

(** C5. For each sizing mode the volume before the limits is the one the
    specification gives: Same, the provider volume; Fixed, the fixed lot;
    Multiplier, provider volume times multiplier; Ratio, provider volume
    times receiver balance over provider balance when the provider balance
    is positive and the provider volume otherwise; Risk, receiver balance
    times risk percent over 100, over 1000. With mode Multiplier,
    multiplier 2.0 and limits 0.01 and 5.0, volume 1.2 gives 2.4 and volume
    3.0 gives 5.0. *)
Theorem calculate_lot_size_by_mode :
  (forall (s : Settings) (m : SizingMode) (pv pb rb : Q),
      get (lot_mode s) "multiplier"%string = mode_name m ->
      lot_size_by_mode s pv pb rb == sizeVolume s m pv pb rb /\
      calculate_lot_size s pv pb rb == apply_limits s (sizeVolume s m pv pb rb)) /\
  (forall (s : Settings) (pb rb : Q),
      lot_mode s = Some (mode_name Multiplier) ->
      lot_multiplier s = Some 2.0 ->
      min_lot s = Some 0.01 ->
      max_lot s = Some 5.0 ->
      calculate_lot_size s 1.2 pb rb == 2.4 /\
      calculate_lot_size s 3.0 pb rb == 5.0).
Proof.
  split.
  - intros s m pv pb rb Hm. split.
    + now apply lot_size_by_mode_spec.
    + unfold calculate_lot_size. apply apply_limits_proper.
      now apply lot_size_by_mode_spec.
  - intros s pb rb Hmode Hmul Hmin Hmax.
    unfold calculate_lot_size, lot_size_by_mode, apply_limits.
    rewrite Hmode, Hmul, Hmin, Hmax. split; vm_compute; reflexivity.
Qed.

Lemma calculate_lot_size_by_mode_witness :
  (lot_size_by_mode scenario_policy 1.2 10000 10000
     == sizeVolume scenario_policy Multiplier 1.2 10000 10000 /\
   calculate_lot_size scenario_policy 1.2 10000 10000
     == apply_limits scenario_policy (sizeVolume scenario_policy Multiplier 1.2 10000 10000)) /\
  (calculate_lot_size scenario_policy 1.2 10000 10000 == 2.4 /\
   calculate_lot_size scenario_policy 3.0 10000 10000 == 5.0).
Proof.
  split.
  - apply (proj1 calculate_lot_size_by_mode scenario_policy Multiplier). reflexivity.
  - apply (proj2 calculate_lot_size_by_mode scenario_policy); reflexivity.
Defined.

Lemma mem_In (x : string) (l : list string) : PyStr.mem x l = true <-> In x l.
Proof.
  unfold PyStr.mem. rewrite existsb_exists. split.
  - intros [y [Hy E]]. apply String.eqb_eq in E. now subst.
  - intros H. exists x. split; [exact H | apply String.eqb_refl].
Qed.

Lemma nonempty_iff (t : string) : nonempty t = true <-> t <> ""%string.
Proof.
  destruct t; simpl; split; congruence.
Qed.

Lemma type_filter_buy (d : direction) :
  PyStr.mem (direction_name d) ["BUY"; "BUY_LIMIT"; "BUY_STOP"]%string = true <-> is_buy d.
Proof.
  unfold is_buy. destruct d; simpl; split; intro H; try reflexivity;
    try discriminate; try tauto; (destruct H as [H | [H | H]]; discriminate H).
Qed.

Lemma type_filter_sell (d : direction) :
  PyStr.mem (direction_name d) ["SELL"; "SELL_LIMIT"; "SELL_STOP"]%string = true <-> is_sell d.
Proof.
  unfold is_sell. destruct d; simpl; split; intro H; try reflexivity;
    try discriminate; try tauto; (destruct H as [H | [H | H]]; discriminate H).
Qed.

Lemma not_buy_and_sell (d : direction) : is_buy d -> is_sell d -> False.
Proof.
  unfold is_buy, is_sell. intros [-> | [-> | ->]] [H | [H | H]]; discriminate H.
Qed.

Lemma In_block_list (s : Settings) (symbol : string) :
  In symbol (block_list s) <->
  nonempty (get (blocked_symbols s) ""%string)
    && PyStr.mem symbol (symbols_list (get (blocked_symbols s) ""%string)) = true.
Proof.
  unfold block_list.
  destruct (nonempty (get (blocked_symbols s) ""%string)); simpl.
  - symmetry. apply mem_In.
  - split; [intros [] | discriminate].
Qed.

Lemma allow_list_rejects (s : Settings) (symbol : string) :
  allow_list_configured s /\ ~ In symbol (allow_list s) <->
  nonempty (get (allowed_symbols s) ""%string)
    && negb (PyStr.mem symbol (symbols_list (get (allowed_symbols s) ""%string))) = true.
Proof.
  unfold allow_list_configured, allow_list.
  rewrite andb_true_iff, negb_true_iff, nonempty_iff, <- mem_In.
  destruct (PyStr.mem symbol _); intuition congruence.
Qed.

(** C4, as amended. [should_copy_trade] returns false exactly when the trade
    is a market or pending buy and [copy_buy] is false, or a market or
    pending sell and [copy_sell] is false, or an allow-list is configured
    and the symbol is not on it, or the symbol is on the block-list. A
    symbol on both lists is rejected. *)
Theorem should_copy_trade_rejects (s : Settings) (d : direction) (symbol : string) :
  (should_copy_trade s (direction_name d) symbol = false <-> rejects s d symbol) /\
  (In symbol (allow_list s) -> In symbol (block_list s) ->
   should_copy_trade s (direction_name d) symbol = false).
Proof.
  assert (Hiff : should_copy_trade s (direction_name d) symbol = false <-> rejects s d symbol).
  { unfold rejects. rewrite allow_list_rejects, In_block_list.
    unfold should_copy_trade.
    destruct (nonempty (get (allowed_symbols s) ""%string)
              && negb (PyStr.mem symbol (symbols_list (get (allowed_symbols s) ""%string))));
      destruct (nonempty (get (blocked_symbols s) ""%string)
                && PyStr.mem symbol (symbols_list (get (blocked_symbols s) ""%string)));
      destruct (get (copy_buy s) true); destruct (get (copy_sell s) true);
      unfold is_buy, is_sell; destruct d; simpl;
      intuition (try congruence; try discriminate). }
  split; [exact Hiff |].
  intros _ Hblock. apply Hiff. unfold rejects. tauto.
Qed.

Lemma should_copy_trade_rejects_witness :
  should_copy_trade both_lists_policy (direction_name Sell) "XAUUSD" = false.
Proof.
  apply (proj2 (should_copy_trade_rejects both_lists_policy Sell "XAUUSD")).
  - simpl. tauto.
  - simpl. tauto.
Defined.

(** C4 as stated fails: with [copy_buy] off and no symbol lists a pending buy
    is rejected, though none of the four stated conditions holds. *)
Lemma should_copy_trade_pending_buy :
  should_copy_trade sell_only_policy (direction_name BuyLimit) "EURUSD" = false /\
  ~ shouldCopy_rejects sell_only_policy BuyLimit "EURUSD".
Proof.
  split; [reflexivity |].
  unfold shouldCopy_rejects, is_sell, allow_list_configured. simpl.
  intros [[H _] | [[[H | [H | H]] _] | [[H _] | []]]];
    try discriminate H. now apply H.
Qed.

(** ** Decimal text of a ticket *)

Lemma ticket_char_plain (c : ascii) :
  ticket_char c = true ->
  PyStr.is_space c = false /\ Ascii.eqb "]" c = false /\ Ascii.eqb c "_" = false.
Proof.
  destruct c as [[] [] [] [] [] [] [] []]; intros H; try discriminate H;
    repeat split; reflexivity.
Qed.

Lemma digit_not_sign (c : ascii) :
  is_digit c = true -> Ascii.eqb c "-" = false /\ Ascii.eqb c "+" = false.
Proof.
  destruct c as [[] [] [] [] [] [] [] []]; intros H; try discriminate H;
    split; reflexivity.
Qed.

Lemma string_of_uint_digits (d : Decimal.uint) :
  all_chars is_digit (NilEmpty.string_of_uint d) = true.
Proof.
  induction d; simpl; auto.
Qed.

Lemma all_chars_weaken (p q : ascii -> bool) (s : string) :
  (forall c, p c = true -> q c = true) ->
  all_chars p s = true -> all_chars q s = true.
Proof.
  intros Hpq. induction s as [| c s IH]; simpl; [reflexivity |].
  rewrite !andb_true_iff. intros [Hc Hs]. auto.
Qed.

Lemma digits_cons (c : ascii) (s : string) (acc k : N) (seen : bool) :
  PyStr.digit_of c = Some k ->
  PyStr.digits (String c s) acc seen = PyStr.digits s (acc * 10 + k)%N true.
Proof.
  intros H. simpl. now rewrite H.
Qed.

Lemma digits_of_uint_acc (d : Decimal.uint) (acc : positive) :
  PyStr.digits (NilEmpty.string_of_uint d) (Npos acc) true
    = Some (Npos (Pos.of_uint_acc d acc)).
Proof.
  revert acc.
  induction d; intros acc; cbn [NilEmpty.string_of_uint Pos.of_uint_acc];
    [reflexivity | ..];
    erewrite digits_cons by (vm_compute; reflexivity);
    rewrite <- IHd; f_equal; lia.
Qed.

Lemma digits_of_uint (d : Decimal.uint) :
  PyStr.digits (NilEmpty.string_of_uint d) 0%N true = Some (Pos.of_uint d).
Proof.
  induction d; cbn [NilEmpty.string_of_uint Pos.of_uint];
    [reflexivity | ..];
    erewrite digits_cons by (vm_compute; reflexivity);
    try exact IHd; apply digits_of_uint_acc.
Qed.

Lemma digits_first (d : Decimal.uint) :
  d <> Decimal.Nil ->
  PyStr.digits (NilEmpty.string_of_uint d) 0%N false = Some (Pos.of_uint d).
Proof.
  intros Hd. rewrite <- digits_of_uint.
  destruct d; [congruence | ..]; cbn [NilEmpty.string_of_uint];
    erewrite !digits_cons by (vm_compute; reflexivity); reflexivity.
Qed.

Lemma string_of_uint_nonempty (d : Decimal.uint) :
  d <> Decimal.Nil -> NilEmpty.string_of_uint d <> ""%string.
Proof.
  destruct d; [congruence | ..]; discriminate.
Qed.

Lemma str_ticket_chars (t : Z) : all_chars ticket_char (PyStr.str t) = true.
Proof.
  assert (H : forall d, all_chars ticket_char (NilZero.string_of_uint d) = true).
  { intros d. destruct d; try reflexivity;
      apply (all_chars_weaken is_digit);
      try (intros c Hc; unfold ticket_char; now rewrite Hc);
      apply (string_of_uint_digits (_ d)). }
  unfold PyStr.str. destruct t; simpl; try reflexivity; apply H.
Qed.

Lemma str_nonempty (t : Z) : PyStr.str t <> ""%string.
Proof.
  unfold PyStr.str. destruct t as [| p | p]; simpl; try discriminate.
  pose proof (DecimalPos.Unsigned.to_uint_nonnil p) as Hp.
  destruct (Pos.to_uint p); [congruence | ..]; discriminate.
Qed.

Lemma lstrip_plain (s : string) :
  all_chars ticket_char s = true -> PyStr.lstrip s = s.
Proof.
  destruct s as [| c s]; simpl; [reflexivity |].
  rewrite andb_true_iff. intros [Hc _].
  apply ticket_char_plain in Hc. destruct Hc as [-> _]. reflexivity.
Qed.

Lemma rstrip_plain (s : string) :
  all_chars ticket_char s = true -> PyStr.rstrip s = s.
Proof.
  induction s as [| c s IH]; simpl; [reflexivity |].
  rewrite andb_true_iff. intros [Hc Hs].
  rewrite (IH Hs). apply ticket_char_plain in Hc. destruct Hc as [-> _].
  destruct s; reflexivity.
Qed.

Lemma strip_plain (s : string) :
  all_chars ticket_char s = true -> PyStr.strip s = s.
Proof.
  intros H. unfold PyStr.strip. rewrite (lstrip_plain s H). now apply rstrip_plain.
Qed.

Lemma int_of_uint_text (d : Decimal.uint) :
  d <> Decimal.Nil ->
  match NilEmpty.string_of_uint d with
  | String c r =>
      if Ascii.eqb c "-" then None
      else if Ascii.eqb c "+" then None
      else option_map Z.of_N (PyStr.digits (String c r) 0%N false)
  | EmptyString => None
  end = Some (Z.of_N (Pos.of_uint d)).
Proof.
  intros Hd. pose proof (digits_first d Hd) as Hdig.
  pose proof (string_of_uint_digits d) as Hall.
  destruct (NilEmpty.string_of_uint d) as [| c r] eqn:E.
  - exfalso. now apply (string_of_uint_nonempty d).
  - simpl in Hall. apply andb_true_iff in Hall. destruct Hall as [Hc _].
    destruct (digit_not_sign c Hc) as [-> ->]. now rewrite Hdig.
Qed.

Lemma ticket_char_int_space (c : ascii) :
  ticket_char c = true -> PyStr.is_int_space c = false.
Proof.
  destruct c as [[] [] [] [] [] [] [] []]; intros H; try discriminate H; reflexivity.
Qed.

Lemma int_strip_plain (s : string) :
  all_chars ticket_char s = true -> PyStr.int_rstrip (PyStr.int_lstrip s) = s.
Proof.
  intros H.
  assert (Hl : PyStr.int_lstrip s = s).
  { destruct s as [| c s]; simpl; [reflexivity |].
    simpl in H. apply andb_true_iff in H. destruct H as [Hc _].
    now rewrite (ticket_char_int_space c Hc). }
  rewrite Hl. clear Hl.
  induction s as [| c s IH]; simpl; [reflexivity |].
  simpl in H. apply andb_true_iff in H. destruct H as [Hc Hs].
  rewrite (IH Hs), (ticket_char_int_space c Hc). destruct s; reflexivity.
Qed.

(** [int(str(t))] is [t]. *)
Lemma int_str (t : Z) : PyStr.int (PyStr.str t) = Some t.
Proof.
  unfold PyStr.int. rewrite (int_strip_plain _ (str_ticket_chars t)).
  unfold PyStr.str.
  destruct t as [| p | p]; [reflexivity | |];
    pose proof (DecimalPos.Unsigned.to_uint_nonnil p) as Hp;
    pose proof (DecimalPos.Unsigned.of_to p) as Hof;
    cbn [Z.to_int NilZero.string_of_int].
  - replace (NilZero.string_of_uint (Pos.to_uint p))
      with (NilEmpty.string_of_uint (Pos.to_uint p))
      by (destruct (Pos.to_uint p); [congruence | reflexivity ..]).
    pose proof (int_of_uint_text _ Hp) as H. rewrite Hof in H.
    destruct (NilEmpty.string_of_uint (Pos.to_uint p)) as [| c r]; [discriminate H |].
    destruct (Ascii.eqb c "-"); [discriminate H |].
    destruct (Ascii.eqb c "+"); [discriminate H |]. exact H.
  - replace (NilZero.string_of_uint (Pos.to_uint p))
      with (NilEmpty.string_of_uint (Pos.to_uint p))
      by (destruct (Pos.to_uint p); [congruence | reflexivity ..]).
    change (Ascii.eqb "-" "-") with true. cbv iota.
    rewrite (digits_first _ Hp), Hof. reflexivity.
Qed.

(** ** Tag round trip *)

Lemma len_append (a b : string) : PyStr.len (a ++ b) = (PyStr.len a + PyStr.len b)%Z.
Proof.
  unfold PyStr.len. induction a as [| c a IH]; simpl String.length; [reflexivity |].
  simpl append. simpl String.length. lia.
Qed.

Lemma len_cons (c : ascii) (s : string) :
  PyStr.len (String c s) = (1 + PyStr.len s)%Z.
Proof. unfold PyStr.len. simpl String.length. lia. Qed.

Lemma len_nonneg (s : string) : (0 <= PyStr.len s)%Z.
Proof. unfold PyStr.len. lia. Qed.

Lemma len_pos (s : string) : s <> ""%string -> (0 < PyStr.len s)%Z.
Proof.
  destruct s; [congruence |]. unfold PyStr.len. simpl. lia.
Qed.

Lemma append_assoc (a b c : string) : ((a ++ b) ++ c = a ++ (b ++ c))%string.
Proof.
  induction a as [| x a IH]; simpl; [reflexivity | now rewrite IH].
Qed.

Lemma norm_index_inside (n i : Z) : (0 <= i <= n)%Z -> PyStr.norm_index n i = i.
Proof.
  intros H. unfold PyStr.norm_index.
  destruct (Z.ltb_spec i 0); lia.
Qed.

Lemma find_inside (sub s : string) (i r : Z) :
  (0 <= i <= PyStr.len s)%Z ->
  PyStr.find_from sub (PyStr.drop (Z.to_nat i) s) i = r ->
  PyStr.find sub s i = r.
Proof.
  intros Hi <-. unfold PyStr.find.
  destruct (Z.ltb_spec i 0); [lia |].
  destruct (Z.ltb_spec (PyStr.len s) i); [lia | reflexivity].
Qed.

Lemma find_from_bracket (s rest : string) (off : Z) :
  all_chars ticket_char s = true ->
  PyStr.find_from "]" (s ++ String "]" rest) off = (off + PyStr.len s)%Z.
Proof.
  revert off. induction s as [| c s IH]; intros off Hs.
  - simpl. unfold PyStr.len. simpl. lia.
  - simpl in Hs. apply andb_true_iff in Hs. destruct Hs as [Hc Hs].
    apply ticket_char_plain in Hc. destruct Hc as [_ [Hc _]].
    cbn [append PyStr.find_from PyStr.startswith]. rewrite Hc. cbn [andb].
    rewrite (IH _ Hs). unfold PyStr.len. simpl String.length. lia.
Qed.

Lemma substring_prefix (t r : string) :
  String.substring 0 (String.length t) (t ++ r) = t.
Proof.
  induction t as [| c t IH]; simpl.
  - destruct r; reflexivity.
  - now rewrite IH.
Qed.

(** The parser reads the ticket back from any comment that starts with the
    tag of that ticket. *)
Lemma parse_tag_of_ticket (t : Z) (rest : string) :
  parse_tag ("[TKT=" ++ PyStr.str t ++ String "]" rest) = Tagged t.
Proof.
  set (T := PyStr.str t).
  set (c := ("[TKT=" ++ T ++ String "]" rest)%string).
  assert (Hlen : PyStr.len c = (5 + PyStr.len T + 1 + PyStr.len rest)%Z).
  { unfold c. rewrite !len_append, !len_cons.
    change (PyStr.len "") with 0%Z. lia. }
  pose proof (len_nonneg rest) as Hrest.
  pose proof (len_pos T (str_nonempty t)) as HT.
  assert (Hfind : PyStr.find "TKT=" c 0 = 1%Z).
  { apply find_inside; [lia | reflexivity]. }
  assert (Hend : PyStr.find "]" c 5 = (5 + PyStr.len T)%Z).
  { apply find_inside; [lia |].
    change (PyStr.drop (Z.to_nat 5) c) with (T ++ String "]" rest)%string.
    apply find_from_bracket, str_ticket_chars. }
  assert (Hslice : PyStr.slice c 5 (5 + PyStr.len T) = T).
  { unfold PyStr.slice. rewrite !norm_index_inside by lia.
    replace (Z.to_nat (5 + PyStr.len T - 5)) with (String.length T)
      by (unfold PyStr.len; lia).
    change (String.substring (Z.to_nat 5) (String.length T) c)
      with (String.substring 0 (String.length T) (T ++ String "]" rest)).
    apply substring_prefix. }
  unfold parse_tag, PyStr.contains. rewrite Hfind.
  change (negb (1 =? -1)%Z) with true. cbv iota.
  change (1 + 4)%Z with 5%Z. rewrite Hend.
  destruct (Z.gtb_spec (5 + PyStr.len T) 5) as [_ | Hle]; [| lia].
  rewrite Hslice. unfold T. now rewrite int_str.
Qed.

Lemma build_tag_shape (t : Z) (opposite : bool) :
  build_tag t opposite
  = ("[TKT=" ++ PyStr.str t
       ++ String "]" (if opposite then "[OPPOSITE]" else ""))%string.
Proof.
  unfold build_tag. destruct opposite; [| reflexivity].
  rewrite !append_assoc. reflexivity.
Qed.

(** C2, as amended. For every provider ticket and either value of the
    opposite flag, the tag parser reads the ticket back from the comment the
    executor builds, and the resolver files a trade carrying that comment
    under that ticket; the flag plays no part in the parse. *)
Theorem parse_tag_build_tag (t : Z) (opposite : bool) :
  parse_tag (build_tag t opposite) = Tagged t /\
  (forall (pos : Trade) (m : PyDict.dict Trade),
      comment pos = Some (build_tag t opposite) ->
      scan [pos] m = Ok (PyDict.set m t pos)).
Proof.
  assert (H : parse_tag (build_tag t opposite) = Tagged t)
    by (rewrite build_tag_shape; apply parse_tag_of_ticket).
  split; [exact H |].
  intros pos m Hc. simpl. rewrite Hc. simpl get. now rewrite H.
Qed.

(** C2 as stated fails: the two comments of ticket 42 differ, yet the parser
    answers the same on both, so nothing computed from its answer can tell
    the opposite flag. *)
Lemma parse_tag_forgets_opposite :
  ~ exists recover : tag -> Z * bool,
      forall opposite : bool,
        recover (parse_tag (build_tag 42 opposite)) = (42%Z, opposite).
Proof.
  intros [recover H].
  pose proof (H true) as Ht. pose proof (H false) as Hf.
  change (parse_tag (build_tag 42 true)) with (Tagged 42) in Ht.
  change (parse_tag (build_tag 42 false)) with (Tagged 42) in Hf.
  congruence.
Qed.

(** ** Traces *)

Lemma run_ret {A : Type} (a : A) (h : list effect) : run (ret a) h = [].
Proof. reflexivity. Qed.

Lemma run_bind {A B : Type} (m : M A) (f : A -> M B) (h : list effect) :
  run (bind m f) h = (run m h ++ run (f (fst (m h))) (h ++ run m h))%list.
Proof.
  unfold run, bind. destruct (m h) as [a d1]. simpl.
  destruct (f a (h ++ d1)%list) as [b d2]. reflexivity.
Qed.

Lemma run_for_each_cons {A : Type} (x : A) (l : list A) (body : A -> M unit)
    (h : list effect) :
  run (for_each (x :: l) body) h
  = (run (body x) h ++ run (for_each l body) (h ++ run (body x) h))%list.
Proof.
  simpl for_each. apply run_bind.
Qed.

(** A property of the effects of every iteration holds of the whole loop. *)
Lemma for_each_Forall {A : Type} (P : effect -> Prop) (l : list A)
    (body : A -> M unit) :
  (forall x h, In x l -> Forall P (run (body x) h)) ->
  forall h, Forall P (run (for_each l body) h).
Proof.
  induction l as [| x l IH]; intros Hbody h.
  - constructor.
  - rewrite run_for_each_cons. apply Forall_app. split.
    + apply Hbody. now left.
    + apply IH. intros y h' Hy. apply Hbody. now right.
Qed.

(** An effect of the loop is an effect of one of its iterations. *)
Lemma for_each_In {A : Type} (l : list A) (body : A -> M unit)
    (h : list effect) (e : effect) :
  In e (run (for_each l body) h) ->
  exists x h', In x l /\ In e (run (body x) h').
Proof.
  revert h. induction l as [| x l IH]; intros h.
  - intros [].
  - rewrite run_for_each_cons, in_app_iff. intros [H | H].
    + exists x, h. split; [now left | exact H].
    + destruct (IH _ H) as [y [h' [Hy He]]]. exists y, h'. split; [now right | exact He].
Qed.

(** ** Trades already copied *)

Lemma differs_false (a b : Q) : differs a b = false <-> a == b.
Proof.
  unfold differs. rewrite negb_false_iff. apply Qeq_bool_iff.
Qed.

(** C6. For a provider trade whose ticket is in the correlation map, the
    loop body calls [modify_position] on the matched receiver trade with the
    provider's stop-loss and take-profit when one of the two differs, and
    does nothing when both agree; in both cases it opens nothing and the
    settings and the symbol table play no part. *)
Theorem copy_trade_already_copied
    (settings : Settings) (db : Database) (mt5 : Venue)
    (provider_id receiver_id : Z) (provider_account receiver_account : Account)
    (receiver_trades_map : PyDict.dict Trade) (trade existing_trade : Trade)
    (h : list effect) :
  PyDict.get receiver_trades_map (ticket trade) = Some existing_trade ->
  let effects :=
    run (copy_trade settings db mt5 provider_id receiver_id provider_account
           receiver_account receiver_trades_map trade) h in
  (In (modify_position receiver_id (ticket existing_trade) (sl trade) (tp trade))
      effects
   <-> ~ (sl existing_trade == sl trade /\ tp existing_trade == tp trade)) /\
  (~ (sl existing_trade == sl trade /\ tp existing_trade == tp trade) ->
   effects = [modify_position receiver_id (ticket existing_trade)
                (sl trade) (tp trade)]) /\
  (sl existing_trade == sl trade /\ tp existing_trade == tp trade ->
   effects = []) /\
  (forall e, In e effects -> open_call e = false) /\
  (forall (settings' : Settings) (db' : Database),
      run (copy_trade settings' db' mt5 provider_id receiver_id provider_account
             receiver_account receiver_trades_map trade) h = effects).
Proof.
  intros Hget effects.
  assert (Hrun : forall s d,
    run (copy_trade s d mt5 provider_id receiver_id provider_account
           receiver_account receiver_trades_map trade) h
    = if differs (sl existing_trade) (sl trade)
         || differs (tp existing_trade) (tp trade)
      then [modify_position receiver_id (ticket existing_trade) (sl trade) (tp trade)]
      else []).
  { intros s d. unfold copy_trade. rewrite Hget.
    destruct (differs (sl existing_trade) (sl trade)
              || differs (tp existing_trade) (tp trade)); reflexivity. }
  unfold effects. rewrite Hrun.
  destruct (differs (sl existing_trade) (sl trade)) eqn:Hsl;
    destruct (differs (tp existing_trade) (tp trade)) eqn:Htp; simpl orb; cbv iota;
    try apply differs_false in Hsl; try apply differs_false in Htp;
    try (assert (Hn1 : ~ sl existing_trade == sl trade)
           by (intros E; apply differs_false in E; congruence));
    try (assert (Hn2 : ~ tp existing_trade == tp trade)
           by (intros E; apply differs_false in E; congruence));
    (split; [| split; [| split; [| split]]]);
    try (intros s d; rewrite Hrun);
    try (rewrite ?Hsl, ?Htp; reflexivity);
    try tauto;
    try (intros e [<- | []]; reflexivity);
    try (intros e []);
    try (simpl; tauto).
Qed.

(** ** Dicts and the resolver *)

Lemma get_In {V : Type} (d : PyDict.dict V) (k : Z) (v : V) :
  PyDict.get d k = Some v -> In (k, v) d.
Proof.
  induction d as [| [k' v'] d IH]; simpl; [discriminate |].
  destruct (Z.eqb_spec k k') as [-> | _].
  - intros [= ->]. now left.
  - intros H. right. now apply IH.
Qed.

Lemma In_get {V : Type} (d : PyDict.dict V) (k : Z) (v : V) :
  NoDup (PyDict.keys d) -> In (k, v) d -> PyDict.get d k = Some v.
Proof.
  unfold PyDict.keys.
  induction d as [| [k' v'] d IH]; simpl; [intros _ [] |].
  intros Hnd [[= -> ->] | Hin].
  - now rewrite Z.eqb_refl.
  - inversion Hnd as [| ? ? Hnotin Hnd']; subst.
    destruct (Z.eqb_spec k k') as [-> | _].
    + exfalso. apply Hnotin. now apply (in_map fst _ (k', v)).
    + now apply IH.
Qed.

Lemma set_In {V : Type} (d : PyDict.dict V) (k k0 : Z) (v v0 : V) :
  In (k, v) (PyDict.set d k0 v0) -> In (k, v) d \/ (k = k0 /\ v = v0).
Proof.
  induction d as [| [k' v'] d IH]; simpl.
  - intros [[= <- <-] | []]. now right.
  - destruct (Z.eqb_spec k0 k') as [-> | _]; simpl.
    + intros [[= <- <-] | H]; [now right | left; now right].
    + intros [H | H]; [left; now left |].
      destruct (IH H) as [H' | H']; [left; now right | now right].
Qed.

Lemma set_keys {V : Type} (d : PyDict.dict V) (k0 : Z) (v0 : V) (k : Z) :
  In k (PyDict.keys (PyDict.set d k0 v0)) -> k = k0 \/ In k (PyDict.keys d).
Proof.
  unfold PyDict.keys.
  induction d as [| [k' v'] d IH]; simpl.
  - intros [<- | []]. now left.
  - destruct (Z.eqb_spec k0 k') as [-> | _]; simpl.
    + intros [<- | H]; [now left | right; now right].
    + intros [<- | H]; [right; now left |].
      destruct (IH H) as [-> | H']; [now left | right; now right].
Qed.

Lemma set_NoDup {V : Type} (d : PyDict.dict V) (k0 : Z) (v0 : V) :
  NoDup (PyDict.keys d) -> NoDup (PyDict.keys (PyDict.set d k0 v0)).
Proof.
  induction d as [| [k' v'] d IH]; simpl; intros Hnd.
  - constructor; [intros [] | constructor].
  - inversion Hnd as [| ? ? Hnotin Hnd']; subst.
    destruct (Z.eqb_spec k0 k') as [-> | Hne]; simpl.
    + now constructor.
    + constructor; [| now apply IH].
      intros Hin. apply set_keys in Hin. destruct Hin as [-> | Hin]; [congruence | auto].
Qed.

(** What a resolver loop leaves in the map: what was there, and the trades
    it read under the ticket of their tag. *)
Lemma scan_In (trades : list Trade) (m m' : PyDict.dict Trade) :
  scan trades m = Ok m' ->
  forall k r, In (k, r) m' ->
    In (k, r) m \/
    (In r trades /\ parse_tag (get (comment r) ""%string) = Tagged k).
Proof.
  revert m. induction trades as [| pos rest IH]; intros m; simpl.
  - intros [= <-] k r H. now left.
  - destruct (parse_tag (get (comment pos) ""%string)) as [| t | lit] eqn:E;
      [| | discriminate]; intros Hscan k r Hin;
      destruct (IH _ Hscan k r Hin) as [H | [H1 H2]]; auto.
    apply set_In in H. destruct H as [H | [-> ->]]; auto.
Qed.

Lemma scan_NoDup (trades : list Trade) (m m' : PyDict.dict Trade) :
  scan trades m = Ok m' -> NoDup (PyDict.keys m) -> NoDup (PyDict.keys m').
Proof.
  revert m. induction trades as [| pos rest IH]; intros m; simpl.
  - now intros [= <-].
  - destruct (parse_tag (get (comment pos) ""%string)); [| | discriminate];
      intros Hscan Hnd; apply (IH _ Hscan); auto using set_NoDup.
Qed.

Lemma resolve_In (positions orders : list Trade) (m : PyDict.dict Trade) :
  resolve positions orders = Ok m ->
  forall k r, In (k, r) m ->
    In r (positions ++ orders) /\ parse_tag (get (comment r) ""%string) = Tagged k.
Proof.
  unfold resolve. destruct (scan positions []) as [m1 | e] eqn:E1; [| discriminate].
  intros E2 k r Hin. rewrite in_app_iff.
  destruct (scan_In _ _ _ E2 k r Hin) as [H | [H1 H2]]; [| tauto].
  destruct (scan_In _ _ _ E1 k r H) as [[] | [H1 H2]]. tauto.
Qed.

Lemma resolve_NoDup (positions orders : list Trade) (m : PyDict.dict Trade) :
  resolve positions orders = Ok m -> NoDup (PyDict.keys m).
Proof.
  unfold resolve. destruct (scan positions []) as [m1 | e] eqn:E1; [| discriminate].
  intros E2. apply (scan_NoDup _ _ _ E2), (scan_NoDup _ _ _ E1). constructor.
Qed.

Lemma cycle_map_resolve (db : Database) (mt5 : Venue) (pid rid : Z)
    (m : PyDict.dict Trade) :
  cycle_map db mt5 pid rid = Some m ->
  resolve (get_positions mt5 rid) (get_orders mt5 rid) = Ok m.
Proof.
  unfold cycle_map.
  destruct (get_account db pid); [| discriminate].
  destruct (get_account db rid); [| discriminate].
  destruct (resolve _ _); [| discriminate]. now intros [= ->].
Qed.

Lemma mem_ticket_In (k : Z) (tickets : list Z) :
  mem_ticket k tickets = true <-> In k tickets.
Proof.
  unfold mem_ticket. rewrite existsb_exists. split.
  - intros [y [Hy E]]. apply Z.eqb_eq in E. now subst.
  - intros H. exists k. split; [exact H | apply Z.eqb_refl].
Qed.

(** ** The copy loop and the orphan pass *)

(** The loop body for one provider trade never closes or deletes, and the
    only trade it may act on is the one the map holds for that ticket. *)
Lemma copy_trade_effects
    (settings : Settings) (db : Database) (mt5 : Venue) (pid rid : Z)
    (pa ra : Account) (m : PyDict.dict Trade) (trade : Trade) (h : list effect) :
  Forall (fun e =>
            orphan_call e = false /\
            forall t, target e = Some t ->
              exists r, PyDict.get m (ticket trade) = Some r /\ ticket r = t)
    (run (copy_trade settings db mt5 pid rid pa ra m trade) h).
Proof.
  unfold copy_trade.
  destruct (PyDict.get m (ticket trade)) as [existing |].
  - destruct (differs _ _ || differs _ _); [| constructor].
    constructor; [| constructor]. split; [reflexivity |].
    intros t [= <-]. now exists existing.
  - destruct (negb (should_copy_trade settings (type_ trade) (symbol trade)));
      [constructor |].
    rewrite run_bind.
    apply Forall_app. split.
    + destruct (PyStr.mem _ _); (constructor; [| constructor]);
        (split; [reflexivity | discriminate]).
    + destruct (placed _); [| constructor].
      repeat constructor; discriminate.
Qed.

(** The loop body of the orphan pass: nothing for a ticket the provider still
    has, else one close or delete, followed by events only. *)
Lemma close_missing_trade_effects
    (mt5 : Venue) (rid : Z) (tickets : list Z) (k : Z) (r : Trade)
    (h : list effect) :
  exists events,
    run (close_missing_trade mt5 rid tickets (k, r)) h
    = (if mem_ticket k tickets then [] else orphan_action rid r :: events)
    /\ Forall passive events.
Proof.
  unfold close_missing_trade, orphan_action.
  destruct (mem_ticket k tickets); simpl negb; cbv iota.
  - exists []. split; constructor.
  - destruct (is_position r); rewrite run_bind;
      unfold call_ok at 1 2; simpl fst;
      match goal with
      | |- context [answer_ok ?v ?hh ?ee] => destruct (answer_ok v hh ee)
      end;
      eexists; (split; [reflexivity |]); repeat constructor.
Qed.

Lemma for_each_In_intro {A : Type} (l : list A) (body : A -> M unit)
    (x : A) (e : effect) :
  In x l -> (forall h, In e (run (body x) h)) ->
  forall h, In e (run (for_each l body) h).
Proof.
  induction l as [| y l IH]; intros Hx He h; [destruct Hx |].
  rewrite run_for_each_cons, in_app_iff.
  destruct Hx as [-> | Hx]; [left; apply He | right; now apply IH].
Qed.

(** The calls of the orphan pass over the items of a map. *)
Lemma close_missing_trades_calls
    (mt5 : Venue) (provider_trades : list Trade) (m : PyDict.dict Trade)
    (rid : Z) (h : list effect) (e : effect) :
  orphan_call e = true ->
  (In e (run (close_missing_trades mt5 provider_trades m rid) h) <->
   exists k r, In (k, r) m /\ ~ In k (map ticket provider_trades) /\
               e = orphan_action rid r).
Proof.
  intros He. unfold close_missing_trades. split.
  - intros Hin. apply for_each_In in Hin. destruct Hin as [[k r] [h' [Hitem Hin]]].
    destruct (close_missing_trade_effects mt5 rid (map ticket provider_trades) k r h')
      as [events [Hrun Hpassive]].
    rewrite Hrun in Hin.
    destruct (mem_ticket k (map ticket provider_trades)) eqn:Hmem; [destruct Hin |].
    exists k, r. split; [exact Hitem |]. split.
    + rewrite <- mem_ticket_In. congruence.
    + destruct Hin as [<- | Hin]; [reflexivity |].
      rewrite Forall_forall in Hpassive. destruct (Hpassive _ Hin). congruence.
  - intros [k [r [Hitem [Hnot ->]]]].
    apply (for_each_In_intro _ _ (k, r)); [exact Hitem |].
    intros h'.
    destruct (close_missing_trade_effects mt5 rid (map ticket provider_trades) k r h')
      as [events [Hrun _]].
    rewrite Hrun.
    destruct (mem_ticket k (map ticket provider_trades)) eqn:Hmem.
    + exfalso. apply Hnot. now apply mem_ticket_In.
    + now left.
Qed.

Lemma orphan_action_target (rid : Z) (r : Trade) :
  target (orphan_action rid r) = Some (ticket r)
  /\ orphan_call (orphan_action rid r) = true.
Proof.
  unfold orphan_action. destruct (is_position r); split; reflexivity.
Qed.

(** A cycle that has a map runs the copy loop, then the orphan pass if it is
    enabled. *)
Lemma copy_trades_run
    (settings : Settings) (db : Database) (mt5 : Venue) (pid rid : Z)
    (provider_trades : list Trade) (m : PyDict.dict Trade) (h : list effect) :
  cycle_map db mt5 pid rid = Some m ->
  exists loop,
    run (copy_trades settings db mt5 pid rid provider_trades) h
    = (loop ++
       if get (close_on_provider_close settings) true
       then run (close_missing_trades mt5 provider_trades m rid) (h ++ loop)
       else [])%list
    /\ Forall (loop_effect m) loop.
Proof.
  unfold cycle_map, copy_trades.
  destruct (get_account db pid) as [pa |]; [| discriminate].
  destruct (get_account db rid) as [ra |]; [| discriminate].
  destruct (resolve _ _) as [m' | e]; [| discriminate].
  intros [= ->].
  exists (run (for_each provider_trades (copy_trade settings db mt5 pid rid pa ra m)) h).
  split.
  - rewrite run_bind. f_equal.
    destruct (get (close_on_provider_close settings) true); reflexivity.
  - apply for_each_Forall. intros trade h' _.
    eapply Forall_impl; [| apply copy_trade_effects].
    intros e [Ho Ht]. split; [exact Ho |].
    intros t Htarget. destruct (Ht t Htarget) as [r [Hr Hticket]].
    now exists (ticket trade), r.
Qed.

(** A cycle that has no map calls nothing. *)
Lemma copy_trades_no_map
    (settings : Settings) (db : Database) (mt5 : Venue) (pid rid : Z)
    (provider_trades : list Trade) (h : list effect) :
  cycle_map db mt5 pid rid = None ->
  Forall passive (run (copy_trades settings db mt5 pid rid provider_trades) h).
Proof.
  unfold cycle_map, copy_trades.
  destruct (get_account db pid) as [pa |]; [| constructor].
  destruct (get_account db rid) as [ra |]; [| constructor].
  destruct (resolve _ _) as [m' | e]; [discriminate |].
  intros _. repeat constructor.
Qed.

(** C3. The orphan pass over a provider snapshot and a correlation map calls
    [close_position] or [delete_order] exactly on the trades the map holds
    for the tickets that the snapshot lacks, closing those it classifies as
    positions and deleting the others. In a cycle these calls happen only
    when [close_on_provider_close] is enabled, and then on exactly those
    trades of the cycle's map. *)
Theorem close_missing_trades_orphans :
  (forall (mt5 : Venue) (provider_trades : list Trade) (m : PyDict.dict Trade)
          (receiver_id : Z) (h : list effect) (e : effect),
      NoDup (PyDict.keys m) ->
      orphan_call e = true ->
      (In e (run (close_missing_trades mt5 provider_trades m receiver_id) h) <->
       exists k r, PyDict.get m k = Some r /\
                   ~ In k (map ticket provider_trades) /\
                   e = orphan_action receiver_id r)) /\
  (forall (settings : Settings) (db : Database) (mt5 : Venue)
          (provider_id receiver_id : Z) (provider_trades : list Trade)
          (h : list effect) (e : effect),
      orphan_call e = true ->
      (In e (run (copy_trades settings db mt5 provider_id receiver_id
                    provider_trades) h) <->
       get (close_on_provider_close settings) true = true /\
       exists m k r, cycle_map db mt5 provider_id receiver_id = Some m /\
                     PyDict.get m k = Some r /\
                     ~ In k (map ticket provider_trades) /\
                     e = orphan_action receiver_id r)).
Proof.
  assert (Hpass : forall mt5 provider_trades m rid h e,
    NoDup (PyDict.keys m) -> orphan_call e = true ->
    (In e (run (close_missing_trades mt5 provider_trades m rid) h) <->
     exists k r, PyDict.get m k = Some r /\
                 ~ In k (map ticket provider_trades) /\
                 e = orphan_action rid r)).
  { intros mt5 provider_trades m rid h e Hnd He.
    rewrite (close_missing_trades_calls _ _ _ _ _ _ He).
    split; intros [k [r [H1 H2]]]; exists k, r; split; auto using get_In, In_get. }
  split; [exact Hpass |].
  intros settings db mt5 pid rid provider_trades h e He.
  destruct (cycle_map db mt5 pid rid) as [m |] eqn:Hmap.
  - destruct (copy_trades_run settings db mt5 pid rid provider_trades m h Hmap)
      as [loop [-> Hloop]].
    pose proof (resolve_NoDup _ _ _ (cycle_map_resolve _ _ _ _ _ Hmap)) as Hnd.
    rewrite in_app_iff. rewrite Forall_forall in Hloop.
    destruct (get (close_on_provider_close settings) true).
    + rewrite (Hpass _ _ _ _ _ _ Hnd He). split.
      * intros [Hin | [k [r H]]].
        -- destruct (Hloop _ Hin). congruence.
        -- split; [reflexivity |]. now exists m, k, r.
      * intros [_ [m' [k [r [[= <-] H]]]]]. right. now exists k, r.
    + split.
      * intros [Hin | []]. destruct (Hloop _ Hin). congruence.
      * intros [Hfalse _]. discriminate Hfalse.
  - pose proof (copy_trades_no_map settings db mt5 pid rid provider_trades h Hmap)
      as Hnone.
    rewrite Forall_forall in Hnone. split.
    + intros Hin. destruct (Hnone _ Hin). congruence.
    + intros [_ [m [k [r [Hm _]]]]]. discriminate Hm.
Qed.

Lemma NoDup_map_inj {A B : Type} (f : A -> B) (l : list A) (a b : A) :
  NoDup (map f l) -> In a l -> In b l -> f a = f b -> a = b.
Proof.
  induction l as [| x l IH]; simpl; [intros _ [] |].
  intros Hnd Ha Hb E. inversion Hnd as [| ? ? Hnotin Hnd']; subst.
  destruct Ha as [-> | Ha]; destruct Hb as [-> | Hb]; auto.
  - exfalso. apply Hnotin. rewrite E. now apply in_map.
  - exfalso. apply Hnotin. rewrite <- E. now apply in_map.
Qed.

(** C8. A receiver trade whose comment has no tag the resolver recognises is
    not held in the correlation map of the cycle; every [modify_position],
    [close_position] and [delete_order] of the cycle acts on the ticket of a
    trade the map holds; so, tickets being unique on the receiver account,
    none of these calls acts on the ticket of that trade. *)
Theorem untagged_trade_untouched
    (settings : Settings) (db : Database) (mt5 : Venue)
    (provider_id receiver_id : Z) (provider_trades : list Trade)
    (h : list effect) (r : Trade) :
  In r (get_positions mt5 receiver_id ++ get_orders mt5 receiver_id) ->
  (forall k, parse_tag (get (comment r) ""%string) <> Tagged k) ->
  let effects :=
    run (copy_trades settings db mt5 provider_id receiver_id provider_trades) h in
  (forall m, cycle_map db mt5 provider_id receiver_id = Some m ->
             ~ In r (PyDict.values m)) /\
  (forall e t, In e effects -> target e = Some t ->
     exists m k r', cycle_map db mt5 provider_id receiver_id = Some m /\
                    PyDict.get m k = Some r' /\ ticket r' = t) /\
  (NoDup (map ticket (get_positions mt5 receiver_id ++ get_orders mt5 receiver_id)) ->
   forall e, In e effects -> target e <> Some (ticket r)).
Proof.
  intros Hr Huntagged effects.
  assert (Hheld : forall e t, In e effects -> target e = Some t ->
     exists m k r', cycle_map db mt5 provider_id receiver_id = Some m /\
                    PyDict.get m k = Some r' /\ ticket r' = t).
  { intros e t Hin Ht. unfold effects in Hin.
    destruct (cycle_map db mt5 provider_id receiver_id) as [m |] eqn:Hmap.
    - destruct (copy_trades_run settings db mt5 provider_id receiver_id
                  provider_trades m h Hmap) as [loop [Hrun Hloop]].
      rewrite Hrun, in_app_iff in Hin. rewrite Forall_forall in Hloop.
      destruct Hin as [Hin | Hin].
      + destruct (Hloop _ Hin) as [_ Hl]. destruct (Hl t Ht) as [k [r' H]].
        now exists m, k, r'.
      + destruct (get (close_on_provider_close settings) true); [| destruct Hin].
        unfold close_missing_trades in Hin. apply for_each_In in Hin.
        destruct Hin as [[k r'] [h' [Hitem Hin]]].
        destruct (close_missing_trade_effects mt5 receiver_id
                    (map ticket provider_trades) k r' h') as [events [Hev Hpassive]].
        rewrite Hev in Hin.
        destruct (mem_ticket k (map ticket provider_trades)); [destruct Hin |].
        destruct Hin as [<- | Hin].
        * destruct (orphan_action_target receiver_id r') as [Htarget _].
          rewrite Htarget in Ht. injection Ht as <-.
          exists m, k, r'. repeat split.
          apply In_get; [| exact Hitem].
          exact (resolve_NoDup _ _ _ (cycle_map_resolve _ _ _ _ _ Hmap)).
        * rewrite Forall_forall in Hpassive. destruct (Hpassive _ Hin). congruence.
    - pose proof (copy_trades_no_map settings db mt5 provider_id receiver_id
                    provider_trades h Hmap) as Hnone.
      rewrite Forall_forall in Hnone. destruct (Hnone _ Hin). congruence. }
  split; [| split; [exact Hheld |]].
  - intros m Hmap Hin. unfold PyDict.values in Hin.
    apply in_map_iff in Hin. destruct Hin as [[k r'] [Hsnd Hin]]. simpl in Hsnd. subst r'.
    destruct (resolve_In _ _ _ (cycle_map_resolve _ _ _ _ _ Hmap) k r Hin) as [_ Htag].
    exact (Huntagged k Htag).
  - intros Hnd e Hin Ht.
    destruct (Hheld e (ticket r) Hin Ht) as [m [k [r' [Hmap [Hget Hticket]]]]].
    destruct (resolve_In _ _ _ (cycle_map_resolve _ _ _ _ _ Hmap) k r' (get_In _ _ _ Hget))
      as [Hr' Htag].
    assert (r' = r) by (apply (NoDup_map_inj ticket _ _ _ Hnd Hr' Hr Hticket)).
    subst r'. exact (Huntagged k Htag).
Qed.

(** ** Cycles on sample data *)

Example cycle_closes_orphan :
  run (copy_trades default_settings sample_db (sample_venue [receiver_copy] []) 1 2 []) []
  = [close_position 2 9001; emit_trade_closed 9001 555].
Proof. reflexivity. Qed.

Example cycle_deletes_orphan_order :
  run (copy_trades default_settings sample_db
         (sample_venue [receiver_copy; receiver_manual] [receiver_order]) 1 2
         [provider_buy]) []
  = [delete_order 2 9002; emit_order_deleted 9002 556].
Proof. reflexivity. Qed.

Example cycle_moves_stops :
  run (copy_trades default_settings sample_db (sample_venue [receiver_copy] []) 1 2
         [provider_buy_moved]) []
  = [modify_position 2 9001 1.07 1.25].
Proof. reflexivity. Qed.

Example cycle_opens_copy :
  run (copy_trades default_settings sample_db (sample_venue [receiver_manual] []) 1 2
         [provider_buy]) []
  = [place_trade 2 "BUY" "EURUSD" (1.0 * 1.0) 1.05 1.25 "[TKT=555]" 123456;
     log_copied_trade 1 2 555 100000 "EURUSD" "BUY" (1.0 * 1.0);
     emit_trade_copied (Some "provider"%string) (Some "receiver"%string)
       "EURUSD" "BUY" (1.0 * 1.0) 100000].
Proof. reflexivity. Qed.

(** A tag that [int] refuses makes the resolver raise, and the cycle of the
    pair ends with an error event. *)
Lemma copy_trades_raise
    (settings : Settings) (db : Database) (mt5 : Venue) (pid rid : Z)
    (provider_trades : list Trade) (h : list effect)
    (pa ra : Account) (e : exn) :
  get_account db pid = Some pa ->
  get_account db rid = Some ra ->
  resolve (get_positions mt5 rid) (get_orders mt5 rid) = Raise e ->
  run (copy_trades settings db mt5 pid rid provider_trades) h = [emit_error e pid rid].
Proof.
  intros Hpa Hra Hres. unfold copy_trades. now rewrite Hpa, Hra, Hres.
Qed.

(** C7, on the failing input. The receiver holds one position whose comment
    is [[TKT=abc]]: the tag is malformed, the resolver raises instead of
    skipping it, and the cycle ends with an error event, the provider's new
    trade left uncopied; without that position the same cycle copies it. *)
Theorem copy_trades_aborts_on_malformed_tag :
  parse_tag "[TKT=abc]" = Invalid "abc" /\
  resolve [receiver_garbled] [] = Raise (ValueError "abc") /\
  run (copy_trades default_settings sample_db (sample_venue [receiver_garbled] []) 1 2
         [provider_buy]) []
  = [emit_error (ValueError "abc") 1 2] /\
  In (place_trade 2 "BUY" "EURUSD" (1.0 * 1.0) 1.05 1.25 "[TKT=555]" 123456)
     (run (copy_trades default_settings sample_db (sample_venue [] []) 1 2
             [provider_buy]) []).
Proof.
  split; [reflexivity |]. split; [reflexivity |]. split.
  - apply (copy_trades_raise _ _ _ _ _ _ _ (account_of "provider" 10000)
             (account_of "receiver" 10000)); reflexivity.
  - left. reflexivity.
Qed.

(** ** Instances of the theorems that have hypotheses *)

Lemma parse_tag_build_tag_witness :
  scan [receiver_copy] [] = Ok (PyDict.set [] 555 receiver_copy).
Proof.
  apply (proj2 (parse_tag_build_tag 555 false)). reflexivity.
Defined.

Lemma close_missing_trades_orphans_witness :
  In (close_position 2 9001)
     (run (close_missing_trades (sample_venue [receiver_copy] [receiver_order])
             [] [(555%Z, receiver_copy); (556%Z, receiver_order)] 2) []).
Proof.
  apply (proj1 close_missing_trades_orphans).
  - simpl. repeat constructor; simpl; intuition lia.
  - reflexivity.
  - exists 555%Z, receiver_copy. simpl. split; [reflexivity |]. split; [tauto | reflexivity].
Defined.

Lemma copy_trade_already_copied_witness :
  run (copy_trade default_settings sample_db (sample_venue [receiver_copy] []) 1 2
         (account_of "provider" 10000) (account_of "receiver" 10000)
         [(555%Z, receiver_copy)] provider_buy_moved) []
  = [modify_position 2 9001 1.07 1.25].
Proof.
  refine (proj1 (proj2 (copy_trade_already_copied default_settings sample_db
           (sample_venue [receiver_copy] []) 1 2
           (account_of "provider" 10000) (account_of "receiver" 10000)
           [(555%Z, receiver_copy)] provider_buy_moved receiver_copy [] _)) _).
  - reflexivity.
  - vm_compute. intros [H _]. discriminate H.
Defined.

Lemma untagged_trade_untouched_witness :
  ~ In receiver_manual
      (PyDict.values [(555%Z, receiver_copy); (556%Z, receiver_order)]).
Proof.
  apply (proj1 (untagged_trade_untouched default_settings sample_db
                  (sample_venue [receiver_copy; receiver_manual] [receiver_order])
                  1 2 [provider_buy] [] receiver_manual
                  ltac:(simpl; tauto)
                  ltac:(intros k; vm_compute; discriminate))).
  reflexivity.
Defined.


(** * Further properties of the code *)

(** ** Symbol mapping *)

Lemma append_empty_r (s : string) : (s ++ "")%string = s.
Proof.
  induction s as [| c s IH]; simpl; [reflexivity | now rewrite IH].
Qed.

Lemma mapping_matches_iff (m : SymbolMapping) (symbol : string)
    (receiver_broker : option string) :
  String.eqb (provider_symbol m) symbol
  && (match broker_name m, receiver_broker with
      | Some b, Some r => String.eqb b r
      | None, None => true
      | _, _ => false
      end
      || match broker_name m with
         | None => true
         | Some b => String.eqb b ""
         end) = true
  <-> mapping_matches m symbol receiver_broker.
Proof.
  unfold mapping_matches. rewrite andb_true_iff, orb_true_iff, String.eqb_eq.
  destruct (broker_name m) as [b |]; destruct receiver_broker as [r |];
    rewrite ?String.eqb_eq; intuition (try congruence; try discriminate).
Qed.

Lemma map_symbol_in_none (mappings : list SymbolMapping) (symbol : string)
    (receiver_broker : option string) :
  (forall m, In m mappings -> ~ mapping_matches m symbol receiver_broker) ->
  map_symbol_in mappings symbol receiver_broker = None.
Proof.
  induction mappings as [| m rest IH]; intros Hnone; simpl; [reflexivity |].
  destruct (_ && _) eqn:E.
  - apply mapping_matches_iff in E. exfalso. apply (Hnone m); [now left | exact E].
  - apply IH. intros m' Hm'. apply Hnone. now right.
Qed.

(** X1. [map_symbol] answers with the receiver symbol of the first row of
    the table that is for this symbol and whose broker is the receiver's or
    is empty; later rows and the prefix and suffix play no part. *)
Theorem map_symbol_first_match
    (s : Settings) (before after : list SymbolMapping) (m : SymbolMapping)
    (symbol : string) (provider_broker receiver_broker : option string) :
  (forall m', In m' before -> ~ mapping_matches m' symbol receiver_broker) ->
  mapping_matches m symbol receiver_broker ->
  map_symbol s (before ++ m :: after) symbol provider_broker receiver_broker
  = receiver_symbol m.
Proof.
  intros Hbefore Hm. unfold map_symbol.
  assert (H : map_symbol_in (before ++ m :: after) symbol receiver_broker
              = Some (receiver_symbol m)).
  { induction before as [| m' rest IH]; simpl.
    - apply mapping_matches_iff in Hm. now rewrite Hm.
    - destruct (_ && _) eqn:E.
      + apply mapping_matches_iff in E. exfalso.
        apply (Hbefore m'); [now left | exact E].
      + apply IH. intros m'' Hin. apply Hbefore. now right. }
  now rewrite H.
Qed.

(** X2. When no row of the table is for this symbol and this receiver
    broker, [map_symbol] answers prefix, symbol, suffix; with neither key in
    the settings the symbol comes back unchanged. *)
Theorem map_symbol_fallback
    (s : Settings) (mappings : list SymbolMapping)
    (symbol : string) (provider_broker receiver_broker : option string) :
  (forall m, In m mappings -> ~ mapping_matches m symbol receiver_broker) ->
  map_symbol s mappings symbol provider_broker receiver_broker
  = (get (symbol_prefix s) "" ++ symbol ++ get (symbol_suffix s) "")%string /\
  (symbol_prefix s = None -> symbol_suffix s = None ->
   map_symbol s mappings symbol provider_broker receiver_broker = symbol).
Proof.
  intros Hnone. unfold map_symbol.
  rewrite (map_symbol_in_none _ _ _ Hnone). split; [reflexivity |].
  intros -> ->. simpl. apply append_empty_r.
Qed.

(** ** Direction mirroring on any type name *)

(** X3. On every string [get_opposite_trade_type] applied twice gives the
    string back, and a string that is none of the six type names is left
    as it is. *)
Theorem get_opposite_trade_type_any (trade_type : string) :
  get_opposite_trade_type (get_opposite_trade_type trade_type) = trade_type /\
  (~ In trade_type known_types -> get_opposite_trade_type trade_type = trade_type).
Proof.
  unfold known_types.
  destruct (String.eqb_spec trade_type "BUY") as [-> | H1];
    [split; [reflexivity | simpl; tauto] |].
  destruct (String.eqb_spec trade_type "SELL") as [-> | H2];
    [split; [reflexivity | simpl; tauto] |].
  destruct (String.eqb_spec trade_type "BUY_LIMIT") as [-> | H3];
    [split; [reflexivity | simpl; tauto] |].
  destruct (String.eqb_spec trade_type "SELL_LIMIT") as [-> | H4];
    [split; [reflexivity | simpl; tauto] |].
  destruct (String.eqb_spec trade_type "BUY_STOP") as [-> | H5];
    [split; [reflexivity | simpl; tauto] |].
  destruct (String.eqb_spec trade_type "SELL_STOP") as [-> | H6];
    [split; [reflexivity | simpl; tauto] |].
  assert (H : get_opposite_trade_type trade_type = trade_type).
  { unfold get_opposite_trade_type, opposite_map. simpl lookup.
    apply String.eqb_neq in H1, H2, H3, H4, H5, H6.
    now rewrite H1, H2, H3, H4, H5, H6. }
  split; [now rewrite !H | intros _; exact H].
Qed.

Lemma map_symbol_first_match_witness :
  map_symbol empty_settings sample_mappings "XAUUSD" None (Some "MyBroker"%string)
  = "GOLD"%string.
Proof.
  apply (map_symbol_first_match empty_settings
           [ {| provider_symbol := "XAUUSD"; receiver_symbol := "GOLD.x";
                broker_name := Some "OtherBroker"%string |} ]
           [ {| provider_symbol := "XAUUSD"; receiver_symbol := "XAU";
                broker_name := Some ""%string |} ]
           {| provider_symbol := "XAUUSD"; receiver_symbol := "GOLD";
              broker_name := None |}).
  - intros m' [<- | []]. unfold mapping_matches. simpl.
    intros [_ [H | [H | H]]]; discriminate H.
  - unfold mapping_matches. simpl. tauto.
Defined.

Lemma map_symbol_fallback_witness :
  map_symbol empty_settings sample_mappings "EURUSD" None (Some "MyBroker"%string)
  = "EURUSD"%string.
Proof.
  apply (proj2 (map_symbol_fallback empty_settings sample_mappings "EURUSD" None
                  (Some "MyBroker"%string)
                  ltac:(unfold mapping_matches; simpl;
                        intros m [<- | [<- | [<- | []]]] [H _]; discriminate H)));
    reflexivity.
Defined.

Lemma get_opposite_trade_type_any_witness :
  get_opposite_trade_type "BUY_STOP_LIMIT" = "BUY_STOP_LIMIT"%string.
Proof.
  apply (proj2 (get_opposite_trade_type_any "BUY_STOP_LIMIT")).
  unfold known_types. simpl.
  intros [H | [H | [H | [H | [H | [H | []]]]]]]; discriminate H.
Defined.

(** ** Sizing beyond the claims *)

(** X4. With [min_lot] above [max_lot] the result is never the computed
    volume itself unless it equals a limit: it is [min_lot] for a volume
    below [min_lot] and [max_lot] for any other, so it can exceed
    [max_lot]. *)
Theorem calculate_lot_size_crossed_limits
    (s : Settings) (provider_volume provider_balance receiver_balance : Q) :
  get (max_lot s) 100.0 < get (min_lot s) 0.01 ->
  let raw := lot_size_by_mode s provider_volume provider_balance receiver_balance in
  let volume := calculate_lot_size s provider_volume provider_balance receiver_balance in
  (raw < get (min_lot s) 0.01 -> volume = get (min_lot s) 0.01) /\
  (get (min_lot s) 0.01 <= raw -> volume = get (max_lot s) 100.0).
Proof.
  intros Hcross raw volume. unfold volume, calculate_lot_size. fold raw.
  destruct (apply_limits_cases s raw) as [[Hlt ->] | [[Hge [Hgt ->]] | [[Hlo Hhi] _]]].
  - split; [reflexivity |]. intros Hge. exfalso. exact (Qlt_not_le _ _ Hlt Hge).
  - split; [| reflexivity]. intros Hlt. exfalso. exact (Qlt_not_le _ _ Hlt Hge).
  - exfalso. apply (Qlt_not_le _ _ Hcross). now apply Qle_trans with raw.
Qed.

Lemma calculate_lot_size_crossed_limits_witness :
  calculate_lot_size crossed_limits_policy 0.5 10000 10000 = 2.0.
Proof.
  apply (proj1 (calculate_lot_size_crossed_limits crossed_limits_policy 0.5 10000 10000
                  ltac:(vm_compute; reflexivity))).
  vm_compute. reflexivity.
Defined.

Lemma apply_limits_monotone (s : Settings) (u v : Q) :
  get (min_lot s) 0.01 <= get (max_lot s) 100.0 ->
  u <= v -> apply_limits s u <= apply_limits s v.
Proof.
  intros Hle Huv.
  destruct (apply_limits_cases s u) as [[Hu ->] | [[Hu1 [Hu2 ->]] | [[Hu1 Hu2] ->]]];
    destruct (apply_limits_cases s v) as [[Hv ->] | [[Hv1 [Hv2 ->]] | [[Hv1 Hv2] ->]]];
    try apply Qle_refl; try assumption.
  - exfalso. apply (Qlt_not_le _ _ Hv). now apply Qle_trans with u.
  - exfalso. apply (Qlt_not_le _ _ Hu2). now apply Qle_trans with v.
  - exfalso. apply (Qlt_not_le _ _ Hv). now apply Qle_trans with u.
Qed.

(** X5. In multiplier mode with a multiplier that is not negative and
    [min_lot <= max_lot], a larger provider volume never gives a smaller
    copied volume. *)
Theorem calculate_lot_size_multiplier_monotone
    (s : Settings) (v1 v2 provider_balance receiver_balance : Q) :
  get (lot_mode s) "multiplier"%string = "multiplier"%string ->
  0 <= get (lot_multiplier s) 1.0 ->
  get (min_lot s) 0.01 <= get (max_lot s) 100.0 ->
  v1 <= v2 ->
  calculate_lot_size s v1 provider_balance receiver_balance
  <= calculate_lot_size s v2 provider_balance receiver_balance.
Proof.
  intros Hmode Hmul Hlim Hv. unfold calculate_lot_size.
  apply apply_limits_monotone; [exact Hlim |].
  unfold lot_size_by_mode. rewrite Hmode. simpl.
  apply Qmult_le_compat_r; assumption.
Qed.

Lemma calculate_lot_size_multiplier_monotone_witness :
  calculate_lot_size scenario_policy 1.2 10000 10000
  <= calculate_lot_size scenario_policy 3.0 10000 10000.
Proof.
  apply (calculate_lot_size_multiplier_monotone scenario_policy 1.2 3.0 10000 10000);
    vm_compute; try reflexivity; discriminate.
Defined.

(** X6. In ratio mode with a positive provider balance, a receiver balance
    that is [c] times the provider's gives [c] times the provider volume
    before the limits; equal balances give the provider volume. *)
Theorem lot_size_ratio_scales
    (s : Settings) (provider_volume provider_balance receiver_balance c : Q) :
  lot_mode s = Some "ratio"%string ->
  0 < provider_balance ->
  receiver_balance == c * provider_balance ->
  lot_size_by_mode s provider_volume provider_balance receiver_balance
    == provider_volume * c /\
  (c == 1 ->
   calculate_lot_size s provider_volume provider_balance receiver_balance
     == apply_limits s provider_volume).
Proof.
  intros Hmode Hpos Hrb.
  assert (H : lot_size_by_mode s provider_volume provider_balance receiver_balance
              == provider_volume * c).
  { unfold lot_size_by_mode. rewrite Hmode. simpl. unfold Qgt_bool.
    apply Qlt_bool_iff in Hpos. rewrite Hpos. rewrite Hrb.
    apply Qlt_bool_iff in Hpos.
    field. intros E. rewrite E in Hpos. exact (Qlt_irrefl _ Hpos). }
  split; [exact H |].
  intros Hc. unfold calculate_lot_size. apply apply_limits_proper.
  rewrite H, Hc. ring.
Qed.

Lemma lot_size_ratio_scales_witness :
  lot_size_by_mode ratio_policy 1.5 10000 30000 == 1.5 * 3.
Proof.
  apply (proj1 (lot_size_ratio_scales ratio_policy 1.5 10000 30000 3
                  ltac:(reflexivity) ltac:(reflexivity) ltac:(reflexivity))).
Defined.

(** ** Filters beyond the claims *)

Lemma mem_known_buy (t : string) :
  ~ In t known_types ->
  PyStr.mem t ["BUY"; "BUY_LIMIT"; "BUY_STOP"]%string = false /\
  PyStr.mem t ["SELL"; "SELL_LIMIT"; "SELL_STOP"]%string = false.
Proof.
  intros Hnot.
  split; apply not_true_is_false; rewrite mem_In; intros Hin; apply Hnot;
    unfold known_types; simpl in *; tauto.
Qed.

(** X7. A trade whose type is none of the six names is not subject to
    [copy_buy] and [copy_sell]: it is rejected exactly when an allow-list is
    configured without its symbol or its symbol is on the block-list. *)
Theorem should_copy_trade_unknown_type
    (s : Settings) (trade_type symbol : string) :
  ~ In trade_type known_types ->
  (should_copy_trade s trade_type symbol = false <->
   (allow_list_configured s /\ ~ In symbol (allow_list s)) \/
   In symbol (block_list s)).
Proof.
  intros Hnot. destruct (mem_known_buy _ Hnot) as [Hbuy Hsell].
  rewrite allow_list_rejects, In_block_list.
  unfold should_copy_trade. rewrite Hbuy, Hsell.
  destruct (nonempty (get (allowed_symbols s) ""%string)
            && negb (PyStr.mem symbol (symbols_list (get (allowed_symbols s) ""%string))));
    destruct (nonempty (get (blocked_symbols s) ""%string)
              && PyStr.mem symbol (symbols_list (get (blocked_symbols s) ""%string)));
    intuition (try congruence; try discriminate).
Qed.

Lemma should_copy_trade_unknown_type_witness :
  should_copy_trade ratio_policy "BUY_STOP_LIMIT" "XAUUSD" = false.
Proof.
  apply (should_copy_trade_unknown_type ratio_policy "BUY_STOP_LIMIT" "XAUUSD").
  - unfold known_types. simpl.
    intros [H | [H | [H | [H | [H | [H | []]]]]]]; discriminate H.
  - right. simpl. tauto.
Defined.

Lemma split_not_nil (sep : ascii) (s : string) : PyStr.split sep s <> [].
Proof.
  destruct s as [| c s]; simpl; [discriminate |].
  destruct (Ascii.eqb c sep); [discriminate |].
  destruct (PyStr.split sep s); discriminate.
Qed.

Lemma split_app (sep : ascii) (a b : string) :
  PyStr.split sep (a ++ String sep b) = (PyStr.split sep a ++ PyStr.split sep b)%list.
Proof.
  induction a as [| c a IH]; simpl.
  - now rewrite Ascii.eqb_refl.
  - destruct (Ascii.eqb c sep); [now rewrite IH |].
    rewrite IH. pose proof (split_not_nil sep a) as Hne.
    destruct (PyStr.split sep a); [congruence | reflexivity].
Qed.

Lemma split_plain (sep : ascii) (s : string) :
  all_chars (fun c => negb (Ascii.eqb c sep)) s = true -> PyStr.split sep s = [s].
Proof.
  induction s as [| c s IH]; simpl; [reflexivity |].
  rewrite andb_true_iff, negb_true_iff. intros [-> Hs]. now rewrite (IH Hs).
Qed.

Lemma all_chars_app (p : ascii -> bool) (a b : string) :
  all_chars p (a ++ b) = all_chars p a && all_chars p b.
Proof.
  induction a as [| c a IH]; simpl; [reflexivity |]. now rewrite IH, andb_assoc.
Qed.

Lemma rstrip_padding (ws : string) :
  all_chars padding_char ws = true -> PyStr.rstrip ws = ""%string.
Proof.
  induction ws as [| c ws IH]; simpl; [reflexivity |].
  rewrite andb_true_iff. unfold padding_char at 1. intros [Hc Hws].
  now rewrite (IH Hws), Hc.
Qed.

Lemma rstrip_padded (x ws : string) :
  all_chars symbol_char x = true -> all_chars padding_char ws = true ->
  PyStr.rstrip (x ++ ws) = x.
Proof.
  intros Hx Hws. induction x as [| c x IH]; simpl.
  - now apply rstrip_padding.
  - simpl in Hx. apply andb_true_iff in Hx. destruct Hx as [Hc Hx].
    rewrite (IH Hx). unfold symbol_char in Hc.
    apply andb_true_iff in Hc. destruct Hc as [Hc _]. apply negb_true_iff in Hc.
    rewrite Hc. destruct x; reflexivity.
Qed.

Lemma lstrip_padding (ws y : string) :
  all_chars padding_char ws = true -> PyStr.lstrip (ws ++ y) = PyStr.lstrip y.
Proof.
  induction ws as [| c ws IH]; simpl; [reflexivity |].
  rewrite andb_true_iff. unfold padding_char at 1. intros [-> Hws]. now apply IH.
Qed.

Lemma strip_padded (ws1 x ws2 : string) :
  all_chars padding_char ws1 = true ->
  all_chars symbol_char x = true ->
  all_chars padding_char ws2 = true ->
  PyStr.strip (ws1 ++ x ++ ws2) = x.
Proof.
  intros H1 Hx H2. unfold PyStr.strip. rewrite (lstrip_padding _ _ H1).
  destruct x as [| c x].
  - simpl. rewrite <- (append_empty_r ws2), (lstrip_padding ws2 "" H2). reflexivity.
  - pose proof Hx as Hx'. simpl in Hx'. apply andb_true_iff in Hx'.
    destruct Hx' as [Hc _]. unfold symbol_char in Hc.
    apply andb_true_iff in Hc. destruct Hc as [Hc _]. apply negb_true_iff in Hc.
    simpl PyStr.lstrip. rewrite Hc.
    change (String c (x ++ ws2)) with (String c x ++ ws2)%string.
    now apply rstrip_padded.
Qed.

(** X8. The text of a symbol list is cut at every comma, and an entry made
    of a symbol (no comma, no white space) with white space around it is
    read as that symbol. *)
Theorem symbols_list_entries :
  (forall a b : string,
      symbols_list (a ++ String "," b) = (symbols_list a ++ symbols_list b)%list) /\
  (forall ws1 x ws2 : string,
      all_chars padding_char ws1 = true ->
      all_chars symbol_char x = true ->
      all_chars padding_char ws2 = true ->
      symbols_list (ws1 ++ x ++ ws2) = [x]).
Proof.
  split.
  - intros a b. unfold symbols_list. now rewrite split_app, map_app.
  - intros ws1 x ws2 H1 Hx H2. unfold symbols_list.
    rewrite split_plain.
    + simpl. now rewrite strip_padded.
    + rewrite !all_chars_app.
      assert (Hpad : forall ws, all_chars padding_char ws = true ->
                all_chars (fun c => negb (Ascii.eqb c ",")) ws = true).
      { intros ws. apply all_chars_weaken. intros c. unfold padding_char.
        destruct (Ascii.eqb_spec c ",") as [-> | _]; [discriminate | reflexivity]. }
      rewrite (Hpad _ H1), (Hpad _ H2). simpl. rewrite andb_true_r.
      revert Hx. apply all_chars_weaken. intros c. unfold symbol_char.
      rewrite andb_true_iff. tauto.
Qed.

Lemma symbols_list_entries_witness :
  symbols_list (" " ++ "XAUUSD" ++ "  ") = ["XAUUSD"%string].
Proof.
  apply (proj2 symbols_list_entries " " "XAUUSD" "  "); reflexivity.
Defined.

(** ** The resolver beyond the claims *)

Lemma get_set_same {V : Type} (d : PyDict.dict V) (k : Z) (v : V) :
  PyDict.get (PyDict.set d k v) k = Some v.
Proof.
  induction d as [| [k' v'] d IH]; simpl.
  - now rewrite Z.eqb_refl.
  - destruct (Z.eqb_spec k k') as [-> | Hne]; simpl.
    + now rewrite Z.eqb_refl.
    + destruct (Z.eqb_spec k k'); [congruence | exact IH].
Qed.

Lemma get_set_other {V : Type} (d : PyDict.dict V) (k k0 : Z) (v : V) :
  k <> k0 -> PyDict.get (PyDict.set d k0 v) k = PyDict.get d k.
Proof.
  intros Hne. induction d as [| [k' v'] d IH]; simpl.
  - destruct (Z.eqb_spec k k0); [congruence | reflexivity].
  - destruct (Z.eqb_spec k0 k') as [-> | Hne']; simpl.
    + destruct (Z.eqb_spec k k'); [congruence | reflexivity].
    + destruct (Z.eqb_spec k k'); [reflexivity | exact IH].
Qed.

Lemma scan_app (l1 l2 : list Trade) (m : PyDict.dict Trade) :
  scan (l1 ++ l2) m
  = match scan l1 m with
    | Ok m1 => scan l2 m1
    | Raise e => Raise e
    end.
Proof.
  revert m. induction l1 as [| pos rest IH]; intros m; simpl; [reflexivity |].
  destruct (parse_tag (get (comment pos) ""%string)); auto.
Qed.

Lemma resolve_scan (positions orders : list Trade) :
  resolve positions orders = scan (positions ++ orders) [].
Proof.
  unfold resolve. rewrite scan_app. destruct (scan positions []); reflexivity.
Qed.

(** A loop over trades none of which is tagged [k] leaves the entry of [k]
    as it was. *)
Lemma scan_get_untouched (trades : list Trade) (m m' : PyDict.dict Trade) (k : Z) :
  scan trades m = Ok m' ->
  (forall r, In r trades -> parse_tag (get (comment r) ""%string) <> Tagged k) ->
  PyDict.get m' k = PyDict.get m k.
Proof.
  revert m. induction trades as [| pos rest IH]; intros m; simpl.
  - now intros [= <-].
  - intros Hscan Hnone.
    assert (Hrest : forall r, In r rest ->
              parse_tag (get (comment r) ""%string) <> Tagged k)
      by (intros r Hr; apply Hnone; now right).
    destruct (parse_tag (get (comment pos) ""%string)) as [| t | lit] eqn:E;
      [| | discriminate].
    + now apply IH.
    + rewrite (IH _ Hscan Hrest). apply get_set_other.
      intros ->. apply (Hnone pos); [now left | exact E].
Qed.

(** X9. Of the receiver trades that carry the tag of one provider ticket,
    the map holds the last one in the order positions, then working orders:
    a working order with the tag wins over any position with it. *)
Theorem resolve_last_wins
    (positions orders earlier later : list Trade) (r : Trade) (k : Z)
    (m : PyDict.dict Trade) :
  resolve positions orders = Ok m ->
  (positions ++ orders = earlier ++ r :: later)%list ->
  parse_tag (get (comment r) ""%string) = Tagged k ->
  (forall r', In r' later -> parse_tag (get (comment r') ""%string) <> Tagged k) ->
  PyDict.get m k = Some r.
Proof.
  intros Hres Hsplit Htag Hlater.
  rewrite resolve_scan, Hsplit, scan_app in Hres.
  destruct (scan earlier []) as [m1 | e]; [| discriminate].
  simpl in Hres. rewrite Htag in Hres.
  rewrite (scan_get_untouched _ _ _ k Hres Hlater). apply get_set_same.
Qed.

Lemma scan_raise_iff (trades : list Trade) (m : PyDict.dict Trade) :
  (exists e, scan trades m = Raise e) <->
  exists r lit, In r trades /\ parse_tag (get (comment r) ""%string) = Invalid lit.
Proof.
  revert m. induction trades as [| pos rest IH]; intros m; simpl.
  - split; [intros [e H]; discriminate H | intros [r [lit [[] _]]]].
  - destruct (parse_tag (get (comment pos) ""%string)) as [| t | lit] eqn:E.
    + rewrite IH. split.
      * intros [r [l [Hr Hl]]]. exists r, l. auto.
      * intros [r [l [[<- | Hr] Hl]]]; [congruence | now exists r, l].
    + rewrite IH. split.
      * intros [r [l [Hr Hl]]]. exists r, l. auto.
      * intros [r [l [[<- | Hr] Hl]]]; [congruence | now exists r, l].
    + split; [intros _ | intros _; now exists (ValueError lit)].
      exists pos, lit. auto.
Qed.

(** X10. The resolver raises exactly when some receiver position or working
    order carries a tag whose text [int] refuses; otherwise it returns a
    map. *)
Theorem resolve_raises_iff (positions orders : list Trade) :
  (exists e, resolve positions orders = Raise e) <->
  exists r lit, In r (positions ++ orders) /\
                parse_tag (get (comment r) ""%string) = Invalid lit.
Proof.
  rewrite resolve_scan. apply scan_raise_iff.
Qed.

Lemma scan_keys (trades : list Trade) (m m' : PyDict.dict Trade) (k : Z) :
  scan trades m = Ok m' ->
  (In k (PyDict.keys m') <->
   In k (PyDict.keys m) \/
   exists r, In r trades /\ parse_tag (get (comment r) ""%string) = Tagged k).
Proof.
  intros Hscan. split.
  - unfold PyDict.keys. rewrite in_map_iff. intros [[k' r] [Hk Hin]]. simpl in Hk. subst k'.
    destruct (scan_In _ _ _ Hscan k r Hin) as [H | H].
    + left. unfold PyDict.keys. now apply (in_map fst _ (k, r)).
    + right. now exists r.
  - revert m Hscan. induction trades as [| pos rest IH]; intros m; simpl.
    + intros [= <-] [H | [r [[] _]]]. exact H.
    + destruct (parse_tag (get (comment pos) ""%string)) as [| t | lit] eqn:E;
        [| | discriminate]; intros Hscan H; apply (IH _ Hscan).
      * destruct H as [H | [r [[<- | Hr] Ht]]]; [now left | congruence |].
        right. now exists r.
      * destruct H as [H | [r [[<- | Hr] Ht]]].
        -- left. unfold PyDict.keys in *. apply in_map_iff in H.
           destruct H as [[k' v] [Hk Hin]]. simpl in Hk. subst k'.
           destruct (Z.eq_dec k t) as [-> | Hne].
           ++ apply (in_map fst _ (t, pos)). apply get_In, get_set_same.
           ++ destruct (PyDict.get m k) as [v' |] eqn:Hg.
              ** apply (in_map fst _ (k, v')). apply get_In.
                 now rewrite get_set_other.
              ** exfalso. clear - Hin Hg.
                 induction m as [| [k1 v1] m IHm]; simpl in *; [destruct Hin |].
                 destruct (Z.eqb_spec k k1) as [-> | Hne1]; [discriminate |].
                 destruct Hin as [[= <- <-] | Hin]; [congruence | auto].
        -- left. rewrite E in Ht. injection Ht as <-.
           unfold PyDict.keys. apply (in_map fst _ (t, pos)), get_In, get_set_same.
        -- right. now exists r.
Qed.

(** X11. When the resolver returns a map, its keys are exactly the provider
    tickets that some receiver position or working order is tagged with,
    no key occurs twice, and every trade it holds sits under the ticket of
    its own tag. *)
Theorem resolve_keys (positions orders : list Trade) (m : PyDict.dict Trade) :
  resolve positions orders = Ok m ->
  (forall k, In k (PyDict.keys m) <->
             exists r, In r (positions ++ orders) /\
                       parse_tag (get (comment r) ""%string) = Tagged k) /\
  NoDup (PyDict.keys m) /\
  (forall k r, PyDict.get m k = Some r ->
               In r (positions ++ orders) /\
               parse_tag (get (comment r) ""%string) = Tagged k).
Proof.
  intros Hres. split; [| split].
  - intros k. rewrite resolve_scan in Hres. rewrite (scan_keys _ _ _ k Hres).
    simpl. tauto.
  - exact (resolve_NoDup _ _ _ Hres).
  - intros k r Hget. apply (resolve_In _ _ _ Hres). now apply get_In.
Qed.

Lemma resolve_last_wins_witness :
  PyDict.get [(555%Z, receiver_order_same_tag)] 555 = Some receiver_order_same_tag.
Proof.
  apply (resolve_last_wins [receiver_copy] [receiver_order_same_tag]
           [receiver_copy] [] receiver_order_same_tag 555).
  - reflexivity.
  - reflexivity.
  - reflexivity.
  - intros r' [].
Defined.

Lemma resolve_keys_witness :
  NoDup (PyDict.keys [(555%Z, receiver_copy); (556%Z, receiver_order)]).
Proof.
  apply (proj1 (proj2 (resolve_keys [receiver_copy; receiver_manual] [receiver_order]
                         [(555%Z, receiver_copy); (556%Z, receiver_order)]
                         ltac:(reflexivity)))).
Defined.

(** ** Opening copies *)

(** What the loop body does for a provider trade it has not copied yet and
    that passes the filters: one call to the venue, then the audit row and
    the event if the venue answered with a ticket. *)
Lemma copy_trade_new
    (settings : Settings) (db : Database) (mt5 : Venue) (pid rid : Z)
    (pa ra : Account) (m : PyDict.dict Trade) (trade : Trade) (h : list effect) :
  PyDict.get m (ticket trade) = None ->
  should_copy_trade settings (type_ trade) (symbol trade) = true ->
  exists call,
    open_call call = true /\
    opens_copy_of settings db pa ra m trade call /\
    run (copy_trade settings db mt5 pid rid pa ra m trade) h
    = call ::
      match placed (answer_ticket mt5 h call) with
      | Some receiver_ticket =>
          [log_copied_trade pid rid (ticket trade) receiver_ticket
             (map_symbol settings (get_symbol_mappings db) (symbol trade)
                (broker pa) (broker ra))
             (if get (opposite_trades settings) false
              then get_opposite_trade_type (type_ trade)
              else type_ trade)
             (calculate_lot_size settings (volume trade) (balance pa) (balance ra));
           emit_trade_copied (name pa) (name ra)
             (map_symbol settings (get_symbol_mappings db) (symbol trade)
                (broker pa) (broker ra))
             (if get (opposite_trades settings) false
              then get_opposite_trade_type (type_ trade)
              else type_ trade)
             (calculate_lot_size settings (volume trade) (balance pa) (balance ra))
             receiver_ticket]
      | None => []
      end.
Proof.
  intros Hget Hfilter. unfold copy_trade. rewrite Hget, Hfilter. simpl negb. cbv iota.
  rewrite run_bind.
  destruct (PyStr.mem _ ["BUY"; "SELL"]%string);
    unfold call_ticket at 1 2; simpl fst; unfold run at 1; simpl snd;
    match goal with
    | |- exists call, _ /\ _ /\ ([?c] ++ _)%list = _ => exists c
    end;
    (split; [reflexivity |]);
    (split; [unfold opens_copy_of; simpl; auto 10 |]);
    simpl app; f_equal;
    match goal with
    | |- context [placed ?x] => destruct (placed x); reflexivity
    end.
Qed.

(** The effects of the loop body, whatever the case. *)
Lemma copy_trade_cases
    (settings : Settings) (db : Database) (mt5 : Venue) (pid rid : Z)
    (pa ra : Account) (m : PyDict.dict Trade) (trade : Trade) (h : list effect)
    (e : effect) :
  In e (run (copy_trade settings db mt5 pid rid pa ra m trade) h) ->
  (is_modify e = true /\ PyDict.get m (ticket trade) <> None) \/
  (open_call e = true /\ opens_copy_of settings db pa ra m trade e) \/
  (exists call receiver_ticket,
      open_call call = true /\ opens_copy_of settings db pa ra m trade call /\
      In call (run (copy_trade settings db mt5 pid rid pa ra m trade) h) /\
      receiver_ticket <> 0%Z /\
      (e = log_copied_trade pid rid (ticket trade) receiver_ticket
             (map_symbol settings (get_symbol_mappings db) (symbol trade)
                (broker pa) (broker ra))
             (if get (opposite_trades settings) false
              then get_opposite_trade_type (type_ trade)
              else type_ trade)
             (calculate_lot_size settings (volume trade) (balance pa) (balance ra))
       \/ e = emit_trade_copied (name pa) (name ra)
             (map_symbol settings (get_symbol_mappings db) (symbol trade)
                (broker pa) (broker ra))
             (if get (opposite_trades settings) false
              then get_opposite_trade_type (type_ trade)
              else type_ trade)
             (calculate_lot_size settings (volume trade) (balance pa) (balance ra))
             receiver_ticket)).
Proof.
  destruct (PyDict.get m (ticket trade)) as [existing |] eqn:Hget.
  - unfold copy_trade. rewrite Hget.
    destruct (differs _ _ || differs _ _); [| intros []].
    intros [<- | []]. left. split; [reflexivity | discriminate].
  - destruct (should_copy_trade settings (type_ trade) (symbol trade)) eqn:Hf.
    + destruct (copy_trade_new settings db mt5 pid rid pa ra m trade h Hget Hf)
        as [call [Hopen [Hspec Hrun]]].
      rewrite Hrun. intros [<- | Hin]; [right; left; now split |].
      right; right.
      destruct (placed (answer_ticket mt5 h call)) as [t |] eqn:Hp; [| destruct Hin].
      exists call, t.
      split; [exact Hopen |]. split; [exact Hspec |].
      split; [now left |]. split.
      * unfold placed in Hp. destruct (answer_ticket mt5 h call) as [t' |]; [| discriminate].
        destruct (Z.eqb_spec t' 0); [discriminate |]. now injection Hp as <-.
      * destruct Hin as [<- | [<- | []]]; auto.
    + unfold copy_trade. rewrite Hget, Hf. intros [].
Qed.

(** Where an effect of a cycle comes from: the loop body for one provider
    trade, the orphan pass, or the handler of a resolver error. *)
Lemma copy_trades_In
    (settings : Settings) (db : Database) (mt5 : Venue) (pid rid : Z)
    (provider_trades : list Trade) (h : list effect) (e : effect) :
  In e (run (copy_trades settings db mt5 pid rid provider_trades) h) ->
  (exists pa ra m trade h',
      get_account db pid = Some pa /\ get_account db rid = Some ra /\
      cycle_map db mt5 pid rid = Some m /\ In trade provider_trades /\
      In e (run (copy_trade settings db mt5 pid rid pa ra m trade) h')) \/
  (exists m h',
      cycle_map db mt5 pid rid = Some m /\
      get (close_on_provider_close settings) true = true /\
      In e (run (close_missing_trades mt5 provider_trades m rid) h')) \/
  (cycle_map db mt5 pid rid = None /\ exists ex, e = emit_error ex pid rid).
Proof.
  unfold copy_trades, cycle_map.
  destruct (get_account db pid) as [pa |]; [| intros []].
  destruct (get_account db rid) as [ra |]; [| intros []].
  destruct (resolve _ _) as [m | ex].
  - rewrite run_bind, in_app_iff. intros [Hin | Hin].
    + left. apply for_each_In in Hin. destruct Hin as [trade [h' [Ht He]]].
      exists pa, ra, m, trade, h'. auto.
    + right; left.
      destruct (get (close_on_provider_close settings) true); [| destruct Hin].
      exists m. eexists. eauto.
  - intros [<- | []]. right; right. split; [reflexivity | now exists ex].
Qed.

Lemma close_missing_trades_effects
    (mt5 : Venue) (provider_trades : list Trade) (m : PyDict.dict Trade)
    (rid : Z) (h : list effect) (e : effect) :
  In e (run (close_missing_trades mt5 provider_trades m rid) h) ->
  open_call e = false /\ is_modify e = false /\ open_comment e = None /\
  open_volume e = None /\
  match e with log_copied_trade _ _ _ _ _ _ _ => False | _ => True end.
Proof.
  unfold close_missing_trades. intros Hin. apply for_each_In in Hin.
  destruct Hin as [[k r] [h' [_ Hin]]].
  unfold close_missing_trade in Hin.
  destruct (negb (mem_ticket k (map ticket provider_trades))); [| destruct Hin].
  destruct (is_position r); rewrite run_bind in Hin;
    unfold call_ok at 1 2 in Hin; simpl fst in Hin; unfold run at 1 in Hin;
    simpl snd in Hin;
    match type of Hin with
    | context [answer_ok ?v ?hh ?ee] => destruct (answer_ok v hh ee)
    end;
    simpl in Hin; intuition (subst; simpl; auto).
Qed.

Lemma copy_trades_open_call
    (settings : Settings) (db : Database) (mt5 : Venue) (pid rid : Z)
    (provider_trades : list Trade) (h : list effect) (e : effect) :
  In e (run (copy_trades settings db mt5 pid rid provider_trades) h) ->
  open_call e = true ->
  exists pa ra m trade,
    get_account db pid = Some pa /\ get_account db rid = Some ra /\
    cycle_map db mt5 pid rid = Some m /\ In trade provider_trades /\
    opens_copy_of settings db pa ra m trade e.
Proof.
  intros Hin Hopen.
  destruct (copy_trades_In _ _ _ _ _ _ _ _ Hin)
    as [[pa [ra [m [trade [h' [Hpa [Hra [Hm [Ht He]]]]]]]]]
       | [[m [h' [_ [_ He]]]] | [_ [ex ->]]]].
  - exists pa, ra, m, trade. repeat (split; [assumption |]).
    destruct (copy_trade_cases _ _ _ _ _ _ _ _ _ _ _ He)
      as [[Hmod _] | [[_ Hspec] | [call [t [_ [_ [_ [_ [-> | ->]]]]]]]]].
    + destruct e; discriminate.
    + exact Hspec.
    + discriminate Hopen.
    + discriminate Hopen.
  - destruct (close_missing_trades_effects _ _ _ _ _ _ He) as [H _]. congruence.
  - discriminate Hopen.
Qed.

Lemma parse_tag_build_tag_ticket (t : Z) (o : bool) : parse_tag (build_tag t o) = Tagged t.
Proof.
  rewrite build_tag_shape. apply parse_tag_of_ticket.
Qed.

(** X12. Every call of a cycle that opens a copy is for a provider trade of
    the snapshot that the map does not hold and the filters accept; it
    carries that trade's tag, which the parser reads back as its ticket, the
    sized volume, and the provider's stop-loss and take-profit unchanged,
    mirrored direction or not. *)
Theorem copy_trades_opens
    (settings : Settings) (db : Database) (mt5 : Venue)
    (provider_id receiver_id : Z) (provider_trades : list Trade)
    (h : list effect) (e : effect) :
  In e (run (copy_trades settings db mt5 provider_id receiver_id provider_trades) h) ->
  open_call e = true ->
  exists provider_account receiver_account m trade comment,
    get_account db provider_id = Some provider_account /\
    get_account db receiver_id = Some receiver_account /\
    cycle_map db mt5 provider_id receiver_id = Some m /\
    In trade provider_trades /\
    PyDict.get m (ticket trade) = None /\
    should_copy_trade settings (type_ trade) (symbol trade) = true /\
    open_comment e = Some comment /\
    parse_tag comment = Tagged (ticket trade) /\
    open_stops e = Some (sl trade, tp trade) /\
    open_volume e
      = Some (calculate_lot_size settings (volume trade)
                (balance provider_account) (balance receiver_account)).
Proof.
  intros Hin Hopen.
  destruct (copy_trades_open_call _ _ _ _ _ _ _ _ Hin Hopen)
    as [pa [ra [m [trade [Hpa [Hra [Hm [Ht Hspec]]]]]]]].
  destruct Hspec as [Hget [Hf [Hc [Hv [Hs _]]]]].
  exists pa, ra, m, trade,
    (build_tag (ticket trade) (get (opposite_trades settings) false)).
  repeat (split; [assumption |]).
  split; [apply parse_tag_build_tag_ticket |]. split; assumption.
Qed.

(** X13. With [min_lot <= max_lot], the volume of every call of a cycle that
    opens a copy lies within the limits. *)
Theorem copy_trades_volume_within_limits
    (settings : Settings) (db : Database) (mt5 : Venue)
    (provider_id receiver_id : Z) (provider_trades : list Trade)
    (h : list effect) (e : effect) (v : Q) :
  get (min_lot settings) 0.01 <= get (max_lot settings) 100.0 ->
  In e (run (copy_trades settings db mt5 provider_id receiver_id provider_trades) h) ->
  open_volume e = Some v ->
  get (min_lot settings) 0.01 <= v <= get (max_lot settings) 100.0.
Proof.
  intros Hle Hin Hv.
  assert (Hopen : open_call e = true) by (destruct e; try discriminate; reflexivity).
  destruct (copy_trades_open_call _ _ _ _ _ _ _ _ Hin Hopen)
    as [pa [ra [m [trade [_ [_ [_ [_ Hspec]]]]]]]].
  destruct Hspec as [_ [_ [_ [Hv' _]]]]. rewrite Hv in Hv'. injection Hv' as ->.
  unfold calculate_lot_size.
  destruct (apply_limits_cases settings
              (lot_size_by_mode settings (volume trade) (balance pa) (balance ra)))
    as [[_ ->] | [[_ [_ ->]] | [[Hlo Hhi] ->]]].
  - split; [apply Qle_refl | exact Hle].
  - split; [exact Hle | apply Qle_refl].
  - split; assumption.
Qed.

Lemma keys_get {V : Type} (d : PyDict.dict V) (k : Z) :
  In k (PyDict.keys d) -> PyDict.get d k <> None.
Proof.
  unfold PyDict.keys. induction d as [| [k' v'] d IH]; simpl; [intros [] |].
  destruct (Z.eqb_spec k k') as [-> | Hne]; [discriminate |].
  intros [H | H]; [congruence | now apply IH].
Qed.

(** X14. While the receiver holds a position or working order whose comment
    is the tag of provider ticket [t], with or without the opposite marker,
    no cycle opens another copy tagged for [t]. *)
Theorem copy_trades_no_duplicate_open
    (settings : Settings) (db : Database) (mt5 : Venue)
    (provider_id receiver_id : Z) (provider_trades : list Trade)
    (h : list effect) (r : Trade) (t : Z) (opposite : bool) :
  In r (get_positions mt5 receiver_id ++ get_orders mt5 receiver_id) ->
  comment r = Some (build_tag t opposite) ->
  forall (e : effect) (opposite' : bool),
    In e (run (copy_trades settings db mt5 provider_id receiver_id provider_trades) h) ->
    open_comment e <> Some (build_tag t opposite').
Proof.
  intros Hr Hc e o' Hin Hcomment.
  assert (Hopen : open_call e = true) by (destruct e; try discriminate; reflexivity).
  destruct (copy_trades_open_call _ _ _ _ _ _ _ _ Hin Hopen)
    as [pa [ra [m [trade [_ [_ [Hm [_ Hspec]]]]]]]].
  destruct Hspec as [Hget [_ [Hc' _]]].
  rewrite Hcomment in Hc'. injection Hc' as Heq.
  assert (Ht : ticket trade = t).
  { pose proof (parse_tag_build_tag_ticket t o') as H1.
    rewrite Heq, parse_tag_build_tag_ticket in H1. now injection H1. }
  apply cycle_map_resolve in Hm. rewrite resolve_scan in Hm.
  apply (keys_get m t); [| now rewrite <- Ht].
  apply (scan_keys _ _ _ t Hm). right. exists r. split; [exact Hr |].
  rewrite Hc. simpl get. apply parse_tag_build_tag_ticket.
Qed.

(** An effect of the loop comes from one iteration, all of whose effects are
    effects of the loop. *)
Lemma for_each_In_segment {A : Type} (l : list A) (body : A -> M unit)
    (h : list effect) (e : effect) :
  In e (run (for_each l body) h) ->
  exists x h', In x l /\ In e (run (body x) h') /\
               incl (run (body x) h') (run (for_each l body) h).
Proof.
  revert h. induction l as [| x l IH]; intros h.
  - intros [].
  - rewrite run_for_each_cons, in_app_iff. intros [H | H].
    + exists x, h. split; [now left |]. split; [exact H |].
      apply incl_appl, incl_refl.
    + destruct (IH _ H) as [y [h' [Hy [He Hincl]]]].
      exists y, h'. split; [now right |]. split; [exact He |].
      now apply incl_appr.
Qed.

(** X15. Every audit row a cycle writes records a receiver ticket other
    than zero and stands for a call of the same cycle that opened a copy
    with the tag of the recorded provider ticket and the recorded symbol,
    type and volume. *)
Theorem copy_trades_audit_rows
    (settings : Settings) (db : Database) (mt5 : Venue)
    (provider_id receiver_id : Z) (provider_trades : list Trade) (h : list effect)
    (pid rid provider_ticket receiver_ticket : Z) (sym ty : string) (vol : Q) :
  In (log_copied_trade pid rid provider_ticket receiver_ticket sym ty vol)
     (run (copy_trades settings db mt5 provider_id receiver_id provider_trades) h) ->
  pid = provider_id /\ rid = receiver_id /\ receiver_ticket <> 0%Z /\
  exists call,
    In call (run (copy_trades settings db mt5 provider_id receiver_id
                    provider_trades) h) /\
    open_call call = true /\
    open_comment call
      = Some (build_tag provider_ticket (get (opposite_trades settings) false)) /\
    open_symbol call = Some sym /\ open_type call = Some ty /\
    open_volume call = Some vol.
Proof.
  unfold copy_trades.
  destruct (get_account db provider_id) as [pa |]; [| intros []].
  destruct (get_account db receiver_id) as [ra |]; [| intros []].
  destruct (resolve _ _) as [m | ex]; [| intros [H | []]; discriminate H].
  rewrite run_bind, in_app_iff. intros [Hin | Hin].
  - apply for_each_In_segment in Hin.
    destruct Hin as [trade [h' [_ [He Hincl]]]].
    destruct (copy_trade_cases _ _ _ _ _ _ _ _ _ _ _ He)
      as [[Hmod _] | [[Hopen _] | [call [t [Hopen [Hspec [Hcall [Hnz [Heq | Heq]]]]]]]]];
      try discriminate.
    injection Heq as -> -> -> -> -> -> ->.
    destruct Hspec as [_ [_ [Hc [Hv [_ [Hty Hsym]]]]]].
    repeat (split; [first [reflexivity | assumption] |]).
    exists call. split; [| auto].
    apply in_or_app. left. now apply Hincl.
  - destruct (get (close_on_provider_close settings) true); [| destruct Hin].
    destruct (close_missing_trades_effects _ _ _ _ _ _ Hin) as [_ [_ [_ [_ []]]]].
Qed.

Lemma close_missing_trades_quiet
    (mt5 : Venue) (provider_trades : list Trade) (m : PyDict.dict Trade)
    (rid : Z) (h : list effect) (e : effect) :
  In e (run (close_missing_trades mt5 provider_trades m rid) h) ->
  open_call e = false /\ is_modify e = false.
Proof.
  intros Hin.
  destruct (close_missing_trades_effects _ _ _ _ _ _ Hin) as [H1 [H2 _]]. auto.
Qed.

(** X16. In a cycle every close or delete of the orphan pass comes after
    every open and every stop modification: once one has happened, no open
    and no modification follows. *)
Theorem copy_trades_orphans_last
    (settings : Settings) (db : Database) (mt5 : Venue)
    (provider_id receiver_id : Z) (provider_trades : list Trade)
    (h before after : list effect) (e : effect) :
  run (copy_trades settings db mt5 provider_id receiver_id provider_trades) h
    = (before ++ e :: after)%list ->
  orphan_call e = true ->
  forall e', In e' after -> open_call e' = false /\ is_modify e' = false.
Proof.
  intros Hrun He e' Hin'.
  destruct (cycle_map db mt5 provider_id receiver_id) as [m |] eqn:Hmap.
  - destruct (copy_trades_run settings db mt5 provider_id receiver_id
                provider_trades m h Hmap) as [loop [Hrun' Hloop]].
    rewrite Hrun in Hrun'. rewrite Forall_forall in Hloop.
    apply app_eq_app in Hrun'.
    destruct Hrun' as [l [[Hb Ht] | [Hl Ht]]].
    + (* the loop ends inside [before] *)
      destruct (get (close_on_provider_close settings) true).
      * apply (close_missing_trades_quiet mt5 provider_trades m receiver_id
                 (h ++ loop)%list e').
        rewrite Ht. apply in_or_app. right. now right.
      * destruct l; discriminate Ht.
    + (* [before] ends inside the loop *)
      destruct l as [| x l].
      * simpl in Ht. rewrite app_nil_r in Hl. subst loop.
        destruct (get (close_on_provider_close settings) true); [| discriminate Ht].
        apply (close_missing_trades_quiet mt5 provider_trades m receiver_id
                 (h ++ before)%list e').
        rewrite <- Ht. now right.
      * simpl in Ht. injection Ht as <- _.
        exfalso. destruct (Hloop e) as [Ho _]; [| congruence].
        rewrite Hl. apply in_or_app. right. now left.
  - pose proof (copy_trades_no_map settings db mt5 provider_id receiver_id
                  provider_trades h Hmap) as Hnone.
    rewrite Forall_forall in Hnone. destruct (Hnone e) as [Ho _]; [| congruence].
    rewrite Hrun. apply in_or_app. right. now left.
Qed.

(** X17. With [close_on_provider_close] enabled, a cycle given an empty
    provider snapshot opens nothing and closes or deletes every trade the
    map holds. *)
Theorem copy_trades_empty_snapshot
    (settings : Settings) (db : Database) (mt5 : Venue)
    (provider_id receiver_id : Z) (h : list effect) (m : PyDict.dict Trade) :
  cycle_map db mt5 provider_id receiver_id = Some m ->
  get (close_on_provider_close settings) true = true ->
  let effects := run (copy_trades settings db mt5 provider_id receiver_id []) h in
  (forall k r, PyDict.get m k = Some r -> In (orphan_action receiver_id r) effects) /\
  (forall e, In e effects -> open_call e = false /\ is_modify e = false).
Proof.
  intros Hmap Hclose effects.
  destruct (copy_trades_run settings db mt5 provider_id receiver_id [] m h Hmap)
    as [loop [Hrun Hloop]].
  assert (Hempty : effects = run (close_missing_trades mt5 [] m receiver_id) h).
  { unfold effects, copy_trades. unfold cycle_map in Hmap.
    destruct (get_account db provider_id); [| discriminate].
    destruct (get_account db receiver_id); [| discriminate].
    destruct (resolve _ _); [| discriminate]. injection Hmap as ->.
    rewrite run_bind, Hclose. simpl for_each. rewrite run_ret. simpl.
    now rewrite app_nil_r. }
  rewrite Hempty. split.
  - intros k r Hget.
    apply (close_missing_trades_calls mt5 [] m receiver_id h);
      [apply orphan_action_target |].
    exists k, r. split; [now apply get_In |]. split; [intros [] | reflexivity].
  - intros e Hin.
    destruct (close_missing_trades_effects _ _ _ _ _ _ Hin) as [H1 [H2 _]]. auto.
Qed.

(** X18. When every ticket of the map is still in the provider snapshot, a
    cycle closes and deletes nothing. *)
Theorem copy_trades_nothing_to_close
    (settings : Settings) (db : Database) (mt5 : Venue)
    (provider_id receiver_id : Z) (provider_trades : list Trade)
    (h : list effect) (m : PyDict.dict Trade) :
  cycle_map db mt5 provider_id receiver_id = Some m ->
  (forall k, In k (PyDict.keys m) -> In k (map ticket provider_trades)) ->
  forall e,
    In e (run (copy_trades settings db mt5 provider_id receiver_id provider_trades) h) ->
    orphan_call e = false.
Proof.
  intros Hmap Hall e Hin.
  destruct (orphan_call e) eqn:He; [exfalso | reflexivity].
  destruct (copy_trades_run settings db mt5 provider_id receiver_id
              provider_trades m h Hmap) as [loop [Hrun Hloop]].
  rewrite Hrun, in_app_iff in Hin. rewrite Forall_forall in Hloop.
  destruct Hin as [Hin | Hin].
  - destruct (Hloop _ Hin). congruence.
  - destruct (get (close_on_provider_close settings) true); [| destruct Hin].
    apply (close_missing_trades_calls _ _ _ _ _ _ He) in Hin.
    destruct Hin as [k [r [Hitem [Hnot _]]]]. apply Hnot, Hall.
    unfold PyDict.keys. now apply (in_map fst _ (k, r)).
Qed.

(** X19. A cycle for a provider or receiver id that the accounts table does
    not know does nothing: no call, no audit row, no event. *)
Theorem copy_trades_unknown_account
    (settings : Settings) (db : Database) (mt5 : Venue)
    (provider_id receiver_id : Z) (provider_trades : list Trade) (h : list effect) :
  get_account db provider_id = None \/ get_account db receiver_id = None ->
  run (copy_trades settings db mt5 provider_id receiver_id provider_trades) h = [].
Proof.
  unfold copy_trades. intros [-> | ->]; [reflexivity |].
  destruct (get_account db provider_id); reflexivity.
Qed.

(** ** The drivers *)

Lemma for_each_ext {A : Type} (l : list A) (body1 body2 : A -> M unit) :
  (forall x h, In x l -> body1 x h = body2 x h) ->
  forall h, for_each l body1 h = for_each l body2 h.
Proof.
  induction l as [| x l IH]; intros Hext h; [reflexivity |].
  simpl. unfold bind. rewrite (Hext x h) by now left.
  destruct (body2 x h) as [a d1].
  rewrite IH; [reflexivity |]. intros y h' Hy. apply Hext. now right.
Qed.

Lemma run_sync_all_accounts
    (settings : Settings) (copy_pending : option bool) (db : Database) (mt5 : Venue)
    (providers receivers : list AccountRow) (h : list effect) :
  run (sync_all_accounts settings copy_pending db mt5 providers receivers) h
  = run (for_each providers (sync_provider settings copy_pending db mt5 receivers)) h.
Proof.
  unfold sync_all_accounts. rewrite run_bind, run_ret. apply app_nil_r.
Qed.

(** The snapshot [sync_all_accounts] hands to the cycles of a provider. *)
Lemma sync_provider_run
    (settings : Settings) (copy_pending : option bool) (db : Database) (mt5 : Venue)
    (receivers : list AccountRow) (provider : AccountRow) (h : list effect) :
  enabled provider = true ->
  sync_provider settings copy_pending db mt5 receivers provider h
  = copy_to_receivers settings db mt5 receivers (id_ provider)
      (get_positions mt5 (id_ provider)
         ++ (if get copy_pending true then get_orders mt5 (id_ provider) else [])) h.
Proof.
  intros He. unfold sync_provider. rewrite He. simpl negb. cbv iota.
  destruct (get copy_pending true); [reflexivity | now rewrite app_nil_r].
Qed.

(** X20. Every effect of [sync_all_accounts] belongs to a cycle of an
    enabled provider and an enabled receiver, run on that provider's
    positions followed, unless [copy_pending] is off, by its working
    orders. *)
Theorem sync_all_accounts_enabled_pairs
    (settings : Settings) (copy_pending : option bool) (db : Database) (mt5 : Venue)
    (providers receivers : list AccountRow) (h : list effect) (e : effect) :
  In e (run (sync_all_accounts settings copy_pending db mt5 providers receivers) h) ->
  exists provider receiver h',
    In provider providers /\ In receiver receivers /\
    enabled provider = true /\ enabled receiver = true /\
    In e (run (copy_trades settings db mt5 (id_ provider) (id_ receiver)
                 (get_positions mt5 (id_ provider)
                    ++ (if get copy_pending true
                        then get_orders mt5 (id_ provider) else []))) h').
Proof.
  rewrite run_sync_all_accounts. intros Hin.
  apply for_each_In in Hin. destruct Hin as [provider [h1 [Hp Hin]]].
  destruct (enabled provider) eqn:Hen.
  - unfold run in Hin. rewrite (sync_provider_run _ _ _ _ _ _ _ Hen) in Hin.
    apply for_each_In in Hin. destruct Hin as [receiver [h2 [Hr Hin]]].
    destruct (enabled receiver) eqn:Hen'; [| destruct Hin].
    exists provider, receiver, h2. auto.
  - unfold sync_provider in Hin. rewrite Hen in Hin. destruct Hin.
Qed.



(** X22. The provider loop of [monitor_trades] runs no cycle for a provider
    without open positions: when no provider has one, a pass has no effect
    at all, so nothing is closed on the receivers. *)
Theorem monitor_providers_no_positions
    (settings : Settings) (db : Database) (mt5 : Venue)
    (providers receivers : list AccountRow) (h : list effect) :
  (forall provider, In provider providers ->
                    get_positions mt5 (id_ provider) = []) ->
  run (monitor_providers settings db mt5 providers receivers) h = [].
Proof.
  unfold monitor_providers. revert h.
  induction providers as [| p rest IH]; intros h Hnone; [reflexivity |].
  rewrite run_for_each_cons.
  assert (Hp : run (monitor_provider settings db mt5 receivers p) h = []).
  { unfold monitor_provider. rewrite (Hnone p) by now left. reflexivity. }
  rewrite Hp. simpl. apply IH. intros q Hq. apply Hnone. now right.
Qed.

(** X23. With [copy_pending] off, on providers that are all enabled and all
    have an open position, a pass of the provider loop of [monitor_trades]
    has the effects of [sync_all_accounts]. *)
Theorem monitor_providers_as_sync
    (settings : Settings) (copy_pending : option bool) (db : Database) (mt5 : Venue)
    (providers receivers : list AccountRow) (h : list effect) :
  get copy_pending true = false ->
  (forall provider, In provider providers ->
      enabled provider = true /\ get_positions mt5 (id_ provider) <> []) ->
  run (monitor_providers settings db mt5 providers receivers) h
  = run (sync_all_accounts settings copy_pending db mt5 providers receivers) h.
Proof.
  intros Hcp Hall. rewrite run_sync_all_accounts.
  unfold monitor_providers, run. f_equal.
  apply for_each_ext. intros p h' Hp. destruct (Hall p Hp) as [Hen Hpos].
  rewrite (sync_provider_run _ _ _ _ _ _ _ Hen), Hcp, app_nil_r.
  unfold monitor_provider.
  destruct (get_positions mt5 (id_ p)); [congruence | reflexivity].
Qed.

(** ** The settings table *)

Example float_plain_examples :
  SettingsTable.float_plain "1.5" = Some (15 # 10) /\
  SettingsTable.float_plain "-0.25" = Some (-25 # 100) /\
  SettingsTable.float_plain ".5" = Some (5 # 10) /\
  SettingsTable.float_plain "5." = Some (5 # 1) /\
  SettingsTable.float_plain "1.2.3" = None /\
  SettingsTable.float_plain "." = None /\
  SettingsTable.float_plain "1.-" = None.
Proof. repeat split; reflexivity. Qed.

Example parse_value_examples :
  SettingsTable.parse_value "multiplier" = Ok (SettingsTable.SStr "multiplier") /\
  SettingsTable.parse_value "TRUE" = Ok (SettingsTable.SBool true) /\
  SettingsTable.parse_value "false" = Ok (SettingsTable.SBool false) /\
  SettingsTable.parse_value "123456" = Ok (SettingsTable.SInt 123456) /\
  SettingsTable.parse_value "0.01" = Ok (SettingsTable.SFloat (1 # 100)) /\
  SettingsTable.parse_value "" = Ok (SettingsTable.SStr "") /\
  SettingsTable.parse_value "-" = Ok (SettingsTable.SStr "-") /\
  SettingsTable.parse_value "1-2" = Raise (ValueError "1-2").
Proof. repeat split; reflexivity. Qed.

Lemma numeric_char_facts (c : ascii) :
  numeric_char c = true ->
  SettingsTable.lower_char c = c /\ Ascii.eqb c "t" = false /\ Ascii.eqb c "f" = false.
Proof.
  destruct c as [[] [] [] [] [] [] [] []]; intros H; try discriminate H;
    repeat split; reflexivity.
Qed.

Lemma digit_not_dot (c : ascii) : is_digit c = true -> Ascii.eqb c "." = false.
Proof.
  destruct c as [[] [] [] [] [] [] [] []]; intros H; try discriminate H; reflexivity.
Qed.

Lemma lower_numeric (s : string) :
  all_chars numeric_char s = true -> SettingsTable.lower s = s.
Proof.
  induction s as [| c s IH]; simpl; [reflexivity |].
  rewrite andb_true_iff. intros [Hc Hs].
  destruct (numeric_char_facts c Hc) as [-> _]. now rewrite (IH Hs).
Qed.

Lemma numeric_not_bool (s : string) :
  all_chars numeric_char s = true ->
  PyStr.mem (SettingsTable.lower s) ["true"; "false"]%string = false.
Proof.
  intros Hs. rewrite (lower_numeric s Hs).
  destruct s as [| c s]; [reflexivity |].
  simpl in Hs. apply andb_true_iff in Hs. destruct Hs as [Hc _].
  destruct (numeric_char_facts c Hc) as [_ [Ht Hf]].
  unfold PyStr.mem. simpl. now rewrite Ht, Hf.
Qed.

Lemma remove_char_digits (x : ascii) (s : string) :
  is_digit x = false -> all_chars is_digit s = true ->
  SettingsTable.remove_char x s = s.
Proof.
  intros Hx. induction s as [| c s IH]; simpl; [reflexivity |].
  rewrite andb_true_iff. intros [Hc Hs].
  destruct (Ascii.eqb_spec c x) as [-> | _]; [congruence | now rewrite (IH Hs)].
Qed.

Lemma remove_char_app (x : ascii) (a b : string) :
  SettingsTable.remove_char x (a ++ b)
  = (SettingsTable.remove_char x a ++ SettingsTable.remove_char x b)%string.
Proof.
  induction a as [| c a IH]; simpl; [reflexivity |].
  destruct (Ascii.eqb c x); [exact IH | simpl; now rewrite IH].
Qed.

Lemma remove_keeps_digits (x : ascii) (s : string) :
  all_chars (fun c => is_digit c || Ascii.eqb c x) s = true ->
  all_chars is_digit (SettingsTable.remove_char x s) = true.
Proof.
  induction s as [| c s IH]; simpl; [reflexivity |].
  rewrite andb_true_iff. intros [Hc Hs].
  destruct (Ascii.eqb c x) eqn:E; [now apply IH |].
  simpl. rewrite orb_false_r in Hc. now rewrite Hc, (IH Hs).
Qed.

Lemma has_char_app (x : ascii) (a b : string) :
  SettingsTable.has_char x (a ++ b)
  = SettingsTable.has_char x a || SettingsTable.has_char x b.
Proof.
  induction a as [| c a IH]; simpl; [reflexivity |]. now rewrite IH, orb_assoc.
Qed.

Lemma has_char_none (x : ascii) (s : string) :
  all_chars (fun c => negb (Ascii.eqb c x)) s = true ->
  SettingsTable.has_char x s = false.
Proof.
  induction s as [| c s IH]; simpl; [reflexivity |].
  rewrite andb_true_iff, negb_true_iff. intros [-> Hs]. now apply IH.
Qed.

Lemma ticket_char_numeric (s : string) :
  all_chars ticket_char s = true ->
  all_chars numeric_char s = true /\
  all_chars (fun c => negb (Ascii.eqb c ".")) s = true /\
  all_chars (fun c => is_digit c || Ascii.eqb c "-") s = true.
Proof.
  intros H. repeat split; revert H; apply all_chars_weaken; intros c Hc.
  - unfold numeric_char. unfold ticket_char in Hc. now rewrite Hc.
  - destruct c as [[] [] [] [] [] [] [] []]; try discriminate Hc; reflexivity.
  - exact Hc.
Qed.

Lemma remove_dot_ticket (s : string) :
  all_chars ticket_char s = true -> SettingsTable.remove_char "." s = s.
Proof.
  induction s as [| c s IH]; simpl; [reflexivity |].
  rewrite andb_true_iff. intros [Hc Hs]. rewrite (IH Hs).
  destruct c as [[] [] [] [] [] [] [] []]; try discriminate Hc; reflexivity.
Qed.

(** The decimal text of an integer: digits, after a minus sign if it is
    negative. *)
Lemma str_shape (n : Z) :
  exists d : string,
    all_chars is_digit d = true /\ nonempty d = true /\
    (PyStr.str n = d \/ PyStr.str n = String "-" d).
Proof.
  unfold PyStr.str.
  destruct n as [| p | p]; [exists "0"%string; auto | |];
    pose proof (DecimalPos.Unsigned.to_uint_nonnil p) as Hp;
    exists (NilEmpty.string_of_uint (Pos.to_uint p));
    (split; [apply string_of_uint_digits |]);
    (split; [pose proof (string_of_uint_nonempty _ Hp) as Hne;
             destruct (NilEmpty.string_of_uint (Pos.to_uint p));
             [congruence | reflexivity] |]);
    cbn [Z.to_int NilZero.string_of_int];
    [left | right];
    (destruct (Pos.to_uint p); [congruence | reflexivity ..]).
Qed.

(** X24. What [update_settings] writes for an integer or a boolean,
    [str(value)], is read back by [get_settings] as that integer or
    boolean. *)
Theorem parse_value_round_trip :
  (forall n : Z, SettingsTable.parse_value (PyStr.str n) = Ok (SettingsTable.SInt n)) /\
  (forall b : bool,
      SettingsTable.parse_value (SettingsTable.str_bool b) = Ok (SettingsTable.SBool b)).
Proof.
  split; [| intros []; reflexivity].
  intros n. unfold SettingsTable.parse_value.
  pose proof (str_ticket_chars n) as Ht.
  destruct (ticket_char_numeric _ Ht) as [Hnum [Hdot Hdash]].
  rewrite (numeric_not_bool _ Hnum), (remove_dot_ticket _ Ht).
  rewrite (has_char_none _ _ Hdot), int_str.
  assert (Hdig : SettingsTable.isdigit (SettingsTable.remove_char "-" (PyStr.str n)) = true).
  { unfold SettingsTable.isdigit. rewrite (remove_keeps_digits _ _ Hdash), andb_true_r.
    destruct (str_shape n) as [d [Hd [Hne [-> | ->]]]]; simpl;
      rewrite (remove_char_digits "-" d eq_refl Hd); exact Hne. }
  now rewrite Hdig.
Qed.

Lemma has_char_remove (c x : ascii) (s : string) :
  c <> x -> SettingsTable.has_char c s = true ->
  SettingsTable.has_char c (SettingsTable.remove_char x s) = true.
Proof.
  intros Hne. induction s as [| a s IH]; simpl; [discriminate |].
  destruct (Ascii.eqb_spec a c) as [-> | Hac]; simpl.
  - intros _. destruct (Ascii.eqb_spec c x); [congruence |].
    simpl. now rewrite Ascii.eqb_refl.
  - intros H. destruct (Ascii.eqb a x); [now apply IH |].
    simpl. rewrite (IH H). now rewrite orb_true_r.
Qed.

Lemma has_char_not_digits (c : ascii) (s : string) :
  is_digit c = false -> SettingsTable.has_char c s = true ->
  all_chars is_digit s = false.
Proof.
  intros Hc. induction s as [| a s IH]; simpl; [discriminate |].
  destruct (Ascii.eqb_spec a c) as [-> | _]; simpl.
  - intros _. now rewrite Hc.
  - intros H. rewrite (IH H). apply andb_false_r.
Qed.

(** X25. A value that is not [true] or [false] in some letter case and has
    a character other than a digit, a dot and a minus sign is kept as the
    string it is. *)
Theorem parse_value_text (value : string) (c : ascii) :
  PyStr.mem (SettingsTable.lower value) ["true"; "false"]%string = false ->
  SettingsTable.has_char c value = true ->
  numeric_char c = false ->
  SettingsTable.parse_value value = Ok (SettingsTable.SStr value).
Proof.
  intros Hbool Hc Hnum. unfold SettingsTable.parse_value. rewrite Hbool.
  unfold numeric_char in Hnum. apply orb_false_iff in Hnum.
  destruct Hnum as [Hnum Hdot]. apply orb_false_iff in Hnum.
  destruct Hnum as [Hdig Hdash].
  assert (H : SettingsTable.isdigit
                (SettingsTable.remove_char "-" (SettingsTable.remove_char "." value))
              = false).
  { unfold SettingsTable.isdigit. apply andb_false_iff. right.
    apply (has_char_not_digits c); [exact Hdig |].
    apply has_char_remove; [intros ->; discriminate Hdash |].
    apply has_char_remove; [intros ->; discriminate Hdot | exact Hc]. }
  now rewrite H.
Qed.

Lemma parse_value_text_witness :
  SettingsTable.parse_value "EURUSD,XAUUSD"
  = Ok (SettingsTable.SStr "EURUSD,XAUUSD").
Proof.
  apply (parse_value_text "EURUSD,XAUUSD" ","); reflexivity.
Defined.

Lemma digits_stop_at_minus (a rest : string) (acc : N) (seen : bool) :
  all_chars is_digit a = true ->
  PyStr.digits (a ++ String "-" rest) acc seen = None.
Proof.
  revert acc seen. induction a as [| c a IH]; intros acc seen; simpl.
  - reflexivity.
  - rewrite andb_true_iff. intros [Hc Ha]. unfold is_digit in Hc.
    destruct (PyStr.digit_of c); [now apply IH | discriminate].
Qed.

Lemma plain_digits_stop_at_dot (b c : string) (acc : N) :
  SettingsTable.plain_digits (b ++ String "." c) acc = None.
Proof.
  revert acc. induction b as [| x b IH]; intros acc; simpl; [reflexivity |].
  destruct (PyStr.digit_of x); [apply IH | reflexivity].
Qed.

Lemma split_dot_digits (a rest : string) :
  all_chars is_digit a = true ->
  SettingsTable.split_dot (a ++ String "." rest) = (a, Some rest).
Proof.
  induction a as [| c a IH]; simpl; [reflexivity |].
  rewrite andb_true_iff. intros [Hc Ha].
  rewrite (digit_not_dot c Hc), (IH Ha). reflexivity.
Qed.

Lemma digits_numeric (a : string) :
  all_chars is_digit a = true ->
  all_chars ticket_char a = true /\ all_chars numeric_char a = true.
Proof.
  intros H. split; revert H; apply all_chars_weaken; intros c Hc;
    unfold ticket_char, numeric_char; now rewrite Hc.
Qed.

(** X26. A value made of digits with a minus sign after the first digits
    (such as a date), or with two dots, passes the numeric test and then
    makes [get_settings] raise [ValueError]. *)
Theorem parse_value_raises :
  (forall a rest : string,
      nonempty a = true -> all_chars is_digit a = true ->
      all_chars ticket_char rest = true ->
      SettingsTable.parse_value (a ++ String "-" rest)
      = Raise (ValueError (a ++ String "-" rest))) /\
  (forall a b c : string,
      nonempty a = true -> all_chars is_digit a = true ->
      all_chars is_digit b = true -> all_chars is_digit c = true ->
      SettingsTable.parse_value (a ++ String "." (b ++ String "." c))
      = Raise (ValueError (a ++ String "." (b ++ String "." c)))).
Proof.
  split.
  - intros a rest Hne Ha Hrest.
    destruct (digits_numeric a Ha) as [Hat Han].
    assert (Hall : all_chars ticket_char (a ++ String "-" rest) = true)
      by (rewrite all_chars_app; simpl; now rewrite Hat, Hrest).
    destruct (ticket_char_numeric _ Hall) as [Hnum [Hdot Hdash]].
    unfold SettingsTable.parse_value.
    rewrite (numeric_not_bool _ Hnum), (remove_dot_ticket _ Hall).
    rewrite (has_char_none _ _ Hdot).
    assert (Hdig : SettingsTable.isdigit
                     (SettingsTable.remove_char "-" (a ++ String "-" rest)) = true).
    { unfold SettingsTable.isdigit.
      rewrite (remove_keeps_digits _ _ Hdash), andb_true_r.
      rewrite remove_char_app, (remove_char_digits "-" a eq_refl Ha).
      destruct a; [discriminate Hne | reflexivity]. }
    rewrite Hdig.
    assert (Hint : PyStr.int (a ++ String "-" rest) = None).
    { unfold PyStr.int. rewrite (int_strip_plain _ Hall).
      destruct a as [| x a]; [discriminate Hne |].
      simpl in Ha. apply andb_true_iff in Ha. destruct Ha as [Hx Ha].
      simpl append. destruct (digit_not_sign x Hx) as [-> ->].
      change (String x (a ++ String "-" rest))
        with (String x a ++ String "-" rest)%string.
      rewrite digits_stop_at_minus; [reflexivity |].
      simpl. now rewrite Hx, Ha. }
    now rewrite Hint.
  - intros a b c Hne Ha Hb Hc.
    set (value := (a ++ String "." (b ++ String "." c))%string).
    destruct (digits_numeric a Ha) as [_ Han].
    destruct (digits_numeric b Hb) as [_ Hbn].
    destruct (digits_numeric c Hc) as [_ Hcn].
    assert (Hnum : all_chars numeric_char value = true).
    { unfold value. rewrite all_chars_app. simpl. rewrite all_chars_app. simpl.
      now rewrite Han, Hbn, Hcn. }
    unfold SettingsTable.parse_value.
    rewrite (numeric_not_bool _ Hnum).
    assert (Hdig : SettingsTable.isdigit
                     (SettingsTable.remove_char "-"
                        (SettingsTable.remove_char "." value)) = true).
    { unfold value. repeat (rewrite remove_char_app; simpl).
      rewrite !(remove_char_digits "." _ eq_refl) by assumption.
      rewrite !(remove_char_digits "-" _ eq_refl) by assumption.
      unfold SettingsTable.isdigit. rewrite !all_chars_app, Ha, Hb, Hc.
      destruct a; [discriminate Hne | reflexivity]. }
    rewrite Hdig.
    assert (Hhas : SettingsTable.has_char "." value = true).
    { unfold value. rewrite has_char_app. simpl. apply orb_true_r. }
    rewrite Hhas.
    assert (Hfloat : SettingsTable.float_plain value = None).
    { unfold SettingsTable.float_plain, value.
      destruct a as [| x a]; [discriminate Hne |].
      pose proof Ha as Ha'. simpl in Ha'. apply andb_true_iff in Ha'.
      destruct Ha' as [Hx _]. simpl append.
      destruct (digit_not_sign x Hx) as [-> _].
      change (String x (a ++ String "." (b ++ String "." c)))
        with (String x a ++ String "." (b ++ String "." c))%string.
      rewrite (split_dot_digits _ _ Ha). simpl get.
      rewrite plain_digits_stop_at_dot.
      destruct (nonempty (String x a) || nonempty (b ++ String "." c));
        [| reflexivity].
      destruct (SettingsTable.plain_digits (String x a) 0); reflexivity. }
    now rewrite Hfloat.
Qed.

Lemma parse_value_raises_witness :
  SettingsTable.parse_value "2024-01-01" = Raise (ValueError "2024-01-01").
Proof.
  apply (proj1 parse_value_raises "2024" "01-01"); reflexivity.
Defined.

Lemma read_rows_raise_iff (rows : list (string * string))
    (settings : list (string * SettingsTable.setting)) :
  (exists e, SettingsTable.read_rows rows settings = Raise e) <->
  exists key value e, In (key, value) rows /\
                      SettingsTable.parse_value value = Raise e.
Proof.
  revert settings. induction rows as [| [k v] rest IH]; intros settings; simpl.
  - split; [intros [e H]; discriminate H | intros [k [v [e [[] _]]]]].
  - destruct (SettingsTable.parse_value v) as [x | ex] eqn:E.
    + rewrite IH. split.
      * intros [k' [v' [e [Hin He]]]]. exists k', v', e. auto.
      * intros [k' [v' [e [[[= <- <-] | Hin] He]]]]; [congruence |].
        now exists k', v', e.
    + split; [intros _ | intros _; now exists ex].
      exists k, v, ex. auto.
Qed.

(** X27. [get_settings] raises exactly when the value of some row makes the
    parsing raise: one such row and no setting at all is returned. *)
Theorem get_settings_raises_iff (rows : list (string * string)) :
  (exists e, SettingsTable.get_settings rows = Raise e) <->
  exists key value e, In (key, value) rows /\
                      SettingsTable.parse_value value = Raise e.
Proof.
  unfold SettingsTable.get_settings. apply read_rows_raise_iff.
Qed.

(** ** Instances of the further properties that have hypotheses *)

Lemma copy_trades_opens_witness :
  exists trade, In trade [provider_buy] /\
                open_stops sample_open = Some (sl trade, tp trade).
Proof.
  destruct (copy_trades_opens default_settings sample_db
              (sample_venue [receiver_manual] []) 1 2 [provider_buy] [] sample_open
              (or_introl eq_refl) eq_refl)
    as [pa [ra [m [trade [c [_ [_ [_ [Hin [_ [_ [_ [_ [Hstops _]]]]]]]]]]]]]].
  exists trade. split; assumption.
Defined.

Lemma copy_trades_volume_within_limits_witness :
  0.01 <= 1.0 * 1.0 <= 100.0.
Proof.
  apply (copy_trades_volume_within_limits default_settings sample_db
           (sample_venue [receiver_manual] []) 1 2 [provider_buy] [] sample_open
           (1.0 * 1.0)).
  - vm_compute. discriminate.
  - left. reflexivity.
  - reflexivity.
Defined.

Lemma copy_trades_no_duplicate_open_witness :
  open_comment sample_open_new <> Some (build_tag 555 false).
Proof.
  apply (copy_trades_no_duplicate_open default_settings sample_db
           (sample_venue [receiver_copy] []) 1 2 [provider_buy; provider_new] []
           receiver_copy 555 false).
  - simpl. tauto.
  - reflexivity.
  - left. reflexivity.
Defined.

Lemma copy_trades_audit_rows_witness : 100000%Z <> 0%Z.
Proof.
  apply (copy_trades_audit_rows default_settings sample_db
           (sample_venue [receiver_manual] []) 1 2 [provider_buy] []
           1 2 555 100000 "EURUSD" "BUY" (1.0 * 1.0)).
  right. left. reflexivity.
Defined.

Lemma copy_trades_orphans_last_witness :
  open_call (delete_order 2 9002) = false /\ is_modify (delete_order 2 9002) = false.
Proof.
  apply (copy_trades_orphans_last default_settings sample_db
           (sample_venue [receiver_copy] [receiver_order]) 1 2 [provider_new] []
           [sample_open_new;
            log_copied_trade 1 2 777 100000 "GBPUSD" "SELL" (0.4 * 1.0);
            emit_trade_copied (Some "provider"%string) (Some "receiver"%string)
              "GBPUSD" "SELL" (0.4 * 1.0) 100000]
           [emit_trade_closed 9001 555; delete_order 2 9002;
            emit_order_deleted 9002 556]
           (close_position 2 9001)).
  - reflexivity.
  - reflexivity.
  - simpl. tauto.
Defined.

Lemma copy_trades_empty_snapshot_witness :
  In (orphan_action 2 receiver_order)
     (run (copy_trades default_settings sample_db
             (sample_venue [receiver_copy] [receiver_order]) 1 2 []) []).
Proof.
  apply (proj1 (copy_trades_empty_snapshot default_settings sample_db
                  (sample_venue [receiver_copy] [receiver_order]) 1 2 []
                  [(555%Z, receiver_copy); (556%Z, receiver_order)]
                  eq_refl eq_refl) 556%Z receiver_order).
  reflexivity.
Defined.

Lemma copy_trades_nothing_to_close_witness :
  orphan_call (modify_position 2 9001 1.07 1.25) = false.
Proof.
  apply (copy_trades_nothing_to_close default_settings sample_db
           (sample_venue [receiver_copy] []) 1 2 [provider_buy_moved] []
           [(555%Z, receiver_copy)] eq_refl).
  - simpl. tauto.
  - left. reflexivity.
Defined.

Lemma copy_trades_unknown_account_witness :
  run (copy_trades default_settings sample_db
         (sample_venue [receiver_copy] [receiver_order]) 7 2 [provider_buy]) []
  = [].
Proof.
  apply copy_trades_unknown_account. left. reflexivity.
Defined.

Lemma sync_all_accounts_enabled_pairs_witness :
  exists provider receiver,
    In provider sample_rows /\ In receiver sample_receivers /\
    enabled provider = true /\ enabled receiver = true.
Proof.
  destruct (sync_all_accounts_enabled_pairs default_settings None sample_db
              split_venue sample_rows sample_receivers []
              (modify_position 2 9001 1.07 1.25) (or_introl eq_refl))
    as [provider [receiver [h' [H1 [H2 [H3 [H4 _]]]]]]].
  exists provider, receiver. auto.
Defined.


Lemma monitor_providers_no_positions_witness :
  run (monitor_providers default_settings sample_db
         (sample_venue [] [receiver_order]) sample_rows sample_receivers) []
  = [].
Proof.
  apply monitor_providers_no_positions. intros provider _. reflexivity.
Defined.

Lemma monitor_providers_as_sync_witness :
  run (monitor_providers default_settings sample_db split_venue
         sample_rows sample_receivers) []
  = run (sync_all_accounts default_settings (Some false) sample_db split_venue
           sample_rows sample_receivers) [].
Proof.
  apply monitor_providers_as_sync.
  - reflexivity.
  - intros provider [<- | []]. split; [reflexivity | discriminate].
Defined.

(** ** Market and pending orders *)

Lemma opposite_keeps_kind (trade_type : string) :
  PyStr.mem (get_opposite_trade_type trade_type) ["BUY"; "SELL"]%string
  = PyStr.mem trade_type ["BUY"; "SELL"]%string.
Proof.
  destruct (String.eqb_spec trade_type "BUY") as [-> | H1]; [reflexivity |].
  destruct (String.eqb_spec trade_type "SELL") as [-> | H2]; [reflexivity |].
  destruct (String.eqb_spec trade_type "BUY_LIMIT") as [-> | H3]; [reflexivity |].
  destruct (String.eqb_spec trade_type "SELL_LIMIT") as [-> | H4]; [reflexivity |].
  destruct (String.eqb_spec trade_type "BUY_STOP") as [-> | H5]; [reflexivity |].
  destruct (String.eqb_spec trade_type "SELL_STOP") as [-> | H6]; [reflexivity |].
  unfold get_opposite_trade_type, opposite_map. simpl lookup.
  apply String.eqb_neq in H1, H2, H3, H4, H5, H6.
  now rewrite H1, H2, H3, H4, H5, H6.
Qed.

(** X28. For a provider trade to copy, the loop body first calls the venue
    once: with a market order when the provider's type is BUY or SELL and
    with a pending order at the provider's opening price (0 when it has
    none) for any other type, whether the direction is mirrored or not. *)
Theorem copy_trade_call_kind
    (settings : Settings) (db : Database) (mt5 : Venue)
    (provider_id receiver_id : Z) (provider_account receiver_account : Account)
    (m : PyDict.dict Trade) (trade : Trade) (h : list effect) :
  PyDict.get m (ticket trade) = None ->
  should_copy_trade settings (type_ trade) (symbol trade) = true ->
  exists call rest,
    run (copy_trade settings db mt5 provider_id receiver_id provider_account
           receiver_account m trade) h = call :: rest /\
    (forall e, In e rest -> open_call e = false) /\
    market_call call = PyStr.mem (type_ trade) ["BUY"; "SELL"]%string /\
    (market_call call = false ->
     pending_price call = Some (get (price_open trade) 0)).
Proof.
  intros Hget Hfilter. unfold copy_trade. rewrite Hget, Hfilter. simpl negb. cbv iota.
  rewrite run_bind.
  assert (Hkind :
    PyStr.mem (if get (opposite_trades settings) false
               then get_opposite_trade_type (type_ trade)
               else type_ trade) ["BUY"; "SELL"]%string
    = PyStr.mem (type_ trade) ["BUY"; "SELL"]%string)
    by (destruct (get (opposite_trades settings) false);
        [apply opposite_keeps_kind | reflexivity]).
  rewrite Hkind.
  destruct (PyStr.mem (type_ trade) ["BUY"; "SELL"]%string);
    unfold call_ticket at 1 2; simpl fst; unfold run at 1; simpl snd;
    match goal with
    | |- exists call rest, ([?c] ++ ?r)%list = _ /\ _ => exists c, r
    end;
    (split; [reflexivity |]);
    (split; [| split; [reflexivity | first [discriminate | reflexivity]]]);
    intros e;
    match goal with
    | |- context [placed ?x] => destruct (placed x)
    end;
    simpl; intuition (subst; reflexivity).
Qed.

Lemma copy_trade_call_kind_witness :
  exists call rest,
    run (copy_trade default_settings sample_db (sample_venue [] []) 1 2
           (account_of "provider" 10000) (account_of "receiver" 10000)
           [] provider_order) [] = call :: rest /\
    pending_price call = Some 1.1.
Proof.
  destruct (copy_trade_call_kind default_settings sample_db (sample_venue [] []) 1 2
              (account_of "provider" 10000) (account_of "receiver" 10000)
              [] provider_order [] eq_refl eq_refl)
    as [call [rest [Hrun [_ [Hkind Hprice]]]]].
  exists call, rest. split; [exact Hrun |]. apply Hprice.
  rewrite Hkind. reflexivity.
Defined.
